(** * geopy.geocoders.google: a shallow embedding of the Google geocoder client

    The development follows [geopy/geocoders/google.py]: the configuration
    held by a [Google] object, the URL builder of [geocode] and [reverse],
    the dispatch of [geocode_url] and the parsers [parse_xml], [parse_kml],
    [parse_json], [parse_csv] and [parse_js].

    Python values that the module handles are modelled by [PyVal]; a raised
    exception is an [Exception]; a method is a computation in the monad [M],
    which threads the interpreter state ([World]: the receiver object, the
    log and the requests sent so far) and may raise.  The call that
    [parse_xml] makes back into [geocode] carries its distance to the
    interpreter's recursion limit, where it raises [RuntimeError].

    What the module takes from outside (the float type, the [%] operator on
    strings, the order of a dict, the XML and JSON libraries, the HTTP
    transport and the [re] functions) is collected in the class [Platform];
    the theorems hold for every platform.  [Fixture] and [Demo] give one
    platform to run the methods on. *)

From Stdlib Require Import String Ascii List ZArith Bool Arith Permutation.
From Stdlib Require Import Numbers.DecimalString.
Import ListNotations.
Set Warnings "-register-all".
Open Scope list_scope.
Open Scope string_scope.

(* ===================================================================== *)
(** ** Python strings *)
(* ===================================================================== *)

Module PyStr.

(** [s.lstrip(c)] for a one-character set. *)
Fixpoint lstrip (c : ascii) (s : string) : string :=
  match s with
  | String a s' => if Ascii.eqb a c then lstrip c s' else s
  | EmptyString => EmptyString
  end.

(** [s.rstrip(c)] for a one-character set. *)
Fixpoint rstrip (c : ascii) (s : string) : string :=
  match s with
  | EmptyString => EmptyString
  | String a s' =>
      match rstrip c s' with
      | EmptyString => if Ascii.eqb a c then EmptyString else String a EmptyString
      | r => String a r
      end
  end.

(** [s.strip(c)]. *)
Definition strip (c : ascii) (s : string) : string := lstrip c (rstrip c s).

(** [s.endswith(suffix)]. *)
Fixpoint endswith (s suffix : string) : bool :=
  (s =? suffix) ||
  match s with
  | String _ s' => endswith s' suffix
  | EmptyString => false
  end.

Definition is_upper (a : ascii) : bool :=
  (65 <=? nat_of_ascii a)%nat && (nat_of_ascii a <=? 90)%nat.

Definition lower_char (a : ascii) : ascii :=
  if is_upper a then ascii_of_nat (nat_of_ascii a + 32) else a.

(** [s.lower()] on a byte string (ASCII letters). *)
Fixpoint lower (s : string) : string :=
  match s with
  | EmptyString => EmptyString
  | String a s' => String (lower_char a) (lower s')
  end.

(** [s.split(c)] for a one-character separator: never an empty list. *)
Fixpoint split (c : ascii) (s : string) : list string :=
  match s with
  | EmptyString => [EmptyString]
  | String a s' =>
      if Ascii.eqb a c then EmptyString :: split c s'
      else match split c s' with
           | w :: ws => String a w :: ws
           | [] => [String a EmptyString]
           end
  end.

(** [sep.join(l)]. *)
Fixpoint join (sep : string) (l : list string) : string :=
  match l with
  | [] => EmptyString
  | [x] => x
  | x :: l' => x ++ sep ++ join sep l'
  end.

(** [c in s]. *)
Fixpoint contains (c : ascii) (s : string) : bool :=
  match s with
  | EmptyString => false
  | String a s' => Ascii.eqb a c || contains c s'
  end.

(** [str(n)] for a non-negative integer, as [%d] renders a length. *)
Definition of_nat (n : nat) : string := NilEmpty.string_of_uint (Nat.to_uint n).

(** [str(b)]. *)
Definition of_bool (b : bool) : string := if b then "True" else "False".

(** Truth value of a string: non-empty. *)
Definition truthy (s : string) : bool :=
  match s with EmptyString => false | _ => true end.

(** Every character of [s] satisfies [p]. *)
Fixpoint all (p : ascii -> bool) (s : string) : bool :=
  match s with
  | EmptyString => true
  | String a s' => p a && all p s'
  end.

End PyStr.

(* ===================================================================== *)
(** ** urllib: [quote], [quote_plus] and [urlencode] (Python 2) *)
(* ===================================================================== *)

Module Urllib.

Definition is_digit (a : ascii) : bool :=
  (48 <=? nat_of_ascii a)%nat && (nat_of_ascii a <=? 57)%nat.
Definition is_lower (a : ascii) : bool :=
  (97 <=? nat_of_ascii a)%nat && (nat_of_ascii a <=? 122)%nat.

(** [urllib.always_safe]: letters, digits and [_.-]. *)
Definition always_safe (a : ascii) : bool :=
  PyStr.is_upper a || is_lower a || is_digit a ||
  Ascii.eqb a "_" || Ascii.eqb a "." || Ascii.eqb a "-".

Definition hex_digit (n : nat) : ascii :=
  if (n <? 10)%nat then ascii_of_nat (48 + n) else ascii_of_nat (55 + n).

(** ['%%%02X' % ord(c)]. *)
Definition percent_hex (a : ascii) : string :=
  String "%" (String (hex_digit (nat_of_ascii a / 16))
             (String (hex_digit (nat_of_ascii a mod 16)) EmptyString)).

(** [quote(s, safe)] with [safe] given as a predicate on characters. *)
Fixpoint quote (safe : ascii -> bool) (s : string) : string :=
  match s with
  | EmptyString => EmptyString
  | String a s' =>
      if always_safe a || safe a then String a (quote safe s')
      else percent_hex a ++ quote safe s'
  end.

Fixpoint replace_char (old new : ascii) (s : string) : string :=
  match s with
  | EmptyString => EmptyString
  | String a s' =>
      String (if Ascii.eqb a old then new else a) (replace_char old new s')
  end.

(** [quote_plus(s)] with the default [safe='']:
    [if ' ' in s: return quote(s, ' ').replace(' ', '+')], else
    [quote(s, '')]. *)
Definition quote_plus (s : string) : string :=
  if PyStr.contains " " s
  then replace_char " " "+" (quote (fun a => Ascii.eqb a " ") s)
  else quote (fun _ => false) s.

(** [k + '=' + v] for an item, both through [quote_plus]. *)
Definition component (kv : string * string) : string :=
  quote_plus (fst kv) ++ "=" ++ quote_plus (snd kv).

(** [urlencode(items)]: [k=v] for each item, joined by [&]; the values
    have already been through [str]. *)
Definition urlencode (items : list (string * string)) : string :=
  PyStr.join "&" (map component items).

(** The parameter names of a query string: the text before the first [=]
    of each [&]-separated component. *)
Definition param_name (component : string) : string :=
  hd EmptyString (PyStr.split "=" component).

Definition param_names (query : string) : list string :=
  match query with
  | EmptyString => []
  | _ => map param_name (PyStr.split "&" query)
  end.

(** The characters that [quote_plus] can produce. *)
Definition quoted (a : ascii) : bool :=
  always_safe a || Ascii.eqb a "%" || Ascii.eqb a "+".

End Urllib.

(* ===================================================================== *)
(** ** xml.dom.minidom: the part of the DOM the module walks *)
(* ===================================================================== *)

Module Dom.

Inductive Node : Type :=
| Element (tagName : string) (childNodes : list Node)
| Text (data : string).

(** A parsed document and its document element. *)
Record Document : Type := { documentElement : Node }.

(** The elements named [name] in the subtree of [n], [n] included, in
    document order. *)
Fixpoint elements_by_tag (name : string) (n : Node) : list Node :=
  match n with
  | Text _ => []
  | Element t cs =>
      ((if t =? name then [n] else []) ++ flat_map (elements_by_tag name) cs)%list
  end.

(** [node.getElementsByTagName(name)]: the descendants of [node]. *)
Definition getElementsByTagName (name : string) (node : Node) : list Node :=
  match node with
  | Text _ => []
  | Element _ cs => flat_map (elements_by_tag name) cs
  end.

(** [doc.getElementsByTagName(name)]: the document element counts. *)
Definition doc_getElementsByTagName (name : string) (doc : Document) : list Node :=
  elements_by_tag name (documentElement doc).

End Dom.

(* ===================================================================== *)
(** ** Python values, exceptions and outcomes *)
(* ===================================================================== *)

Section Values.

(** The float type of the interpreter is a parameter: nothing below
    computes with floats, it only moves them. *)
Variable F : Type.

(** The values that travel through the module: what [simplejson.loads]
    returns, what the parsers put into a result. *)
Inductive PyVal : Type :=
| VNone
| VBool (b : bool)
| VInt (z : Z)
| VFloat (f : F)
| VStr (s : string)
| VList (items : list PyVal)
| VDict (members : list (string * PyVal)).

(** Exceptions by class.  [ValueError] carries the message when the module
    itself supplies one ([Some]) and [None] when the interpreter raises
    it.  [GeoStatusError] is the module's own class and carries
    [self.status].  [OtherError] stands for whatever a collaborator raises
    (a transport failure, a JSON decoding failure). *)
Inductive Exception : Type :=
| ValueError (msg : option string)
| IndexError
| KeyError
| TypeError
| AttributeError
| NameError (name : string)
| NotImplementedError
| RuntimeError
| ExpatError
| GeoStatusError (status : PyVal)
| OtherError (cls : string).

Inductive Outcome (A : Type) : Type :=
| Ok (a : A)
| Raise (e : Exception).

(** The keyword fields that [parse_json] hands to [util.RichResult]. *)
Record Extension : Type := {
  locality : PyVal;
  administrative : PyVal;
  accuracy : PyVal
}.

(** [(location, (latitude, longitude))], with the extension when the
    result is a [util.RichResult].

    Modelled from the spec: [util.RichResult] is not among the sources;
    the spec has a result as the label and coordinate "plus an optional
    extension carrying locality, administrative-area name, and an
    accuracy indicator". *)
Record GeoResult : Type := {
  location : PyVal;
  latitude : PyVal;
  longitude : PyVal;
  extension : option Extension
}.

(** The generator expressions [(parse_place(place) for place in places)]
    and [(parse_marker(marker) for marker in markers)]: nothing is parsed
    until the generator is consumed. *)
Inductive Generator : Type :=
| GenXml (places : list Dom.Node)
| GenJson (places : list PyVal)
| GenJs (markers : list (string * string * string)).

(** What a parser returns under [exactly_one]. *)
Definition Returned (exactly_one : bool) : Type :=
  if exactly_one then GeoResult else Generator.

End Values.

Arguments VNone {F}.
Arguments VBool {F} b.
Arguments VInt {F} z.
Arguments VFloat {F} f.
Arguments VStr {F} s.
Arguments VList {F} items.
Arguments VDict {F} members.
Arguments ValueError {F} msg.
Arguments IndexError {F}.
Arguments KeyError {F}.
Arguments TypeError {F}.
Arguments AttributeError {F}.
Arguments NameError {F} name.
Arguments NotImplementedError {F}.
Arguments RuntimeError {F}.
Arguments ExpatError {F}.
Arguments GeoStatusError {F} status.
Arguments OtherError {F} cls.
Arguments Ok {F A} a.
Arguments Raise {F A} e.
Arguments locality {F} _.
Arguments administrative {F} _.
Arguments accuracy {F} _.
Arguments Build_Extension {F} _ _ _.
Arguments location {F} _.
Arguments latitude {F} _.
Arguments longitude {F} _.
Arguments extension {F} _.
Arguments Build_GeoResult {F} _ _ _ _.
Arguments GenXml {F} places.
Arguments GenJson {F} places.
Arguments GenJs {F} markers.

(* ===================================================================== *)
(** ** geopy.util *)
(* ===================================================================== *)

Module Util.
Import Dom.

(** The text of an element: the data of its first child when that is a
    text node. *)
Definition node_text (n : Node) : option string :=
  match n with
  | Element _ (Text d :: _) => Some d
  | _ => None
  end.

(** The text of the first [tag] element below [node]. *)
Definition field_text (node : Node) (tag : string) : option string :=
  match getElementsByTagName tag node with
  | e :: _ => node_text e
  | [] => None
  end.

(** Modelled from the spec: [util.get_first_text] is not among the
    sources.  The spec has the label as the "first non-empty of an address
    field or a name field, else absent" and the coordinate as the "first
    nested point's coordinate text": the text of the first named field
    that is non-empty, and nothing for an absent node. *)
Fixpoint get_first_text (node : option Node) (tag_names : list string) : option string :=
  match node, tag_names with
  | Some n, tag :: rest =>
      match field_text n tag with
      | Some (String a s) => Some (String a s)
      | _ => get_first_text node rest
      end
  | _, _ => None
  end.

(** An HTTP response as the transport hands it over. *)
Record Response : Type := { body : string }.

(** Modelled from the spec: [util.decode_page] is not among the sources.
    The spec has the transport return "a raw response body", which is what
    the parsers read. *)
Definition decode_page (page : Response) : string := body page.

End Util.

(** A page as a parser receives it: a string already, or the object that
    [urlopen] returned. *)
Inductive Page : Type :=
| PageStr (s : string)
| PageObj (r : Util.Response).

(** [if not isinstance(page, basestring): page = util.decode_page(page)]. *)
Definition page_text (page : Page) : string :=
  match page with
  | PageStr s => s
  | PageObj r => Util.decode_page r
  end.

(* ===================================================================== *)
(** ** The collaborators *)
(* ===================================================================== *)

Class Platform : Type := {
  (** the interpreter's float *)
  float : Type;
  (** [float(s)]; [None] when it raises [ValueError] *)
  float_of_str : string -> option float;
  (** [f == n] for a float and an integer *)
  float_eq_Z : float -> Z -> bool;
  (** [fmt % arg] for a format string and a single non-tuple argument *)
  str_mod : string -> PyVal float -> Outcome float string;
  (** the order in which a dict yields its items *)
  dict_items : list (string * option string) -> list (string * option string);
  dict_items_perm : forall d, Permutation (dict_items d) d;
  (** [xml.dom.minidom.parseString]; malformed input raises [ExpatError]
      (the submodule is taken to be loaded by the package, the module itself
      only imports [xml]) *)
  parseString : string -> Outcome float Dom.Document;
  (** [simplejson.loads] *)
  loads : string -> Outcome float (PyVal float);
  (** [urllib2.urlopen], which may answer by the requests made before *)
  urlopen : list string -> string -> Outcome float Util.Response;
  (** [re.search(pattern, text)] followed by [.group(name)] on a match *)
  re_search : string -> string -> string -> option string;
  (** [re.findall(pattern, text)] for a pattern with three groups *)
  re_findall : string -> string -> list (string * string * string);
  (** [re.match(pattern, text)] followed by [.group(name)] on a match *)
  re_match : string -> string -> string -> option string
}.

(* ===================================================================== *)
(** ** The configuration and the interpreter state *)
(* ===================================================================== *)

(** The attributes that [Google.__init__] stores.  [api_key] defaults to
    [None]; the others are strings. *)
Record Google : Type := {
  api_key : option string;
  domain : string;
  resource : string;
  format_string : string;
  output_format : string
}.

(** [Google()] with the defaults of [__init__]. *)
Definition default_google : Google :=
  {| api_key := None; domain := "maps.google.com"; resource := "maps/geo";
     format_string := "%s"; output_format := "kml" |}.

(** What a call can read and change: the receiver, the root logger's
    records and the URLs opened so far (most recent first). *)
Record World : Type := {
  self : Google;
  log : list string;
  requests : list string
}.

(** A dict with string keys whose values are [None] or a string, in
    insertion order. *)
Definition dict : Type := list (string * option string).

Fixpoint dict_set (k : string) (v : option string) (d : dict) : dict :=
  match d with
  | [] => [(k, v)]
  | (k', v') :: d' =>
      if k' =? k then (k, v) :: d' else (k', v') :: dict_set k v d'
  end.

(** [d.update(new)]. *)
Definition dict_update (d new : dict) : dict :=
  fold_left (fun acc kv => dict_set (fst kv) (snd kv) acc) new d.

(** Truth value of [None] or a string. *)
Definition opt_truthy (v : option string) : bool :=
  match v with
  | Some s => PyStr.truthy s
  | None => false
  end.

(** [str(v)] for [None] or a string. *)
Definition py_str (v : option string) : string :=
  match v with
  | Some s => s
  | None => "None"
  end.

(** The names the module binds at import time (lines 1 to 19) and the
    builtins its code mentions. *)
Definition module_globals : list string :=
  ["logging"; "urlencode"; "urlopen"; "simplejson"; "xml"; "ExpatError";
   "Geocoder"; "Point"; "Location"; "util"; "GeoStatusError"; "Google"].

Definition builtins : list string :=
  ["isinstance"; "basestring"; "float"; "len"; "str"; "getattr"; "locals";
   "super"; "property"; "Exception"; "ValueError"; "NotImplementedError";
   "None"; "True"; "False"].

Definition is_bound (name : string) : bool :=
  existsb (String.eqb name) (module_globals ++ builtins)%list.

(* ===================================================================== *)
(** ** The client *)
(* ===================================================================== *)

Section Client.

Context {P : Platform}.

Abbreviation Val := (PyVal float).
Abbreviation Exc := (Exception float).
Abbreviation Res := (Outcome float).

Abbreviation Result := (GeoResult float).

(** *** The monad of method bodies *)

Definition M (A : Type) : Type := World -> Res A * World.

Definition ret {A} (a : A) : M A := fun w => (Ok a, w).

Definition raise {A} (e : Exc) : M A := fun w => (Raise e, w).

Definition bind {A B} (c : M A) (k : A -> M B) : M B :=
  fun w =>
    match c w with
    | (Ok a, w') => k a w'
    | (Raise e, w') => (Raise e, w')
    end.

(** A computation that only may raise. *)
Definition lift {A} (o : Res A) : M A := fun w => (o, w).

(** Reading [self]. *)
Definition get_self : M Google := fun w => (Ok (self w), w).

(** [logging.getLogger().info(msg)]. *)
Definition log_info (msg : string) : M unit :=
  fun w => (Ok tt, {| self := self w; log := msg :: log w; requests := requests w |}).

(** [urlopen(url)]. *)
Definition fetch (url : string) : M Util.Response :=
  fun w => (urlopen (requests w) url,
            {| self := self w; log := log w; requests := url :: requests w |}).

(** Looking a global name up. *)
Definition global (name : string) : M unit :=
  if is_bound name then ret tt else raise (NameError name).

Definition obind {A B} (o : Res A) (k : A -> Res B) : Res B :=
  match o with
  | Ok a => k a
  | Raise e => Raise e
  end.

Notation "x <- c ;; k" := (bind c (fun x => k))
  (at level 61, c at next level, right associativity).
Notation "c ;;; k" := (bind c (fun _ => k))
  (at level 61, right associativity).
Notation "x <~ c ;; k" := (obind c (fun x => k))
  (at level 61, c at next level, right associativity).

(** *** Lines 56 to 60: the [url] property *)

Definition url (g : Google) : string :=
  let domain := PyStr.strip "/" (domain g) in
  let resource := PyStr.strip "/" (resource g) in
  "http://" ++ domain ++ "/" ++ resource ++ "?%s".

(** [urlencode(params)]: the items in the dict's order, values through
    [str]. *)
Definition urlencode (params : dict) : string :=
  Urllib.urlencode (map (fun kv => (fst kv, py_str (snd kv))) (dict_items params)).

(** *** Lines 64 to 77: the parameters of [geocode] *)

Definition geocode_params (g : Google) (query : Val)
    (language_code : option string) (sensor : bool)
    (viewport_center viewport_span : option string) : Res dict :=
  q <~ str_mod (format_string g) query ;;
  let params := [("q", Some q);
                 ("output", Some (PyStr.lower (output_format g)));
                 ("sensor", Some (PyStr.lower (PyStr.of_bool sensor)))] in
  let params :=
    if opt_truthy language_code
    then dict_update params [("gl", language_code)]
    else params in
  let params :=
    if opt_truthy viewport_center && opt_truthy viewport_span
    then dict_update params [("ll", viewport_center); ("spn", viewport_span)]
    else params in
  let params :=
    if PyStr.endswith (PyStr.rstrip "/" (resource g)) "geo"
    then dict_set "key" (api_key g) params
    else params in
  Ok params.

(** *** Lines 83 to 89: the parameters of [reverse] *)

Definition reverse_params (g : Google) (coord : Val * Val) : Res dict :=
  let (lat, lng) := coord in
  a <~ str_mod (format_string g) lat ;;
  b <~ str_mod (format_string g) lng ;;
  let params := [("q", Some (a ++ "," ++ b));
                 ("output", Some (PyStr.lower (output_format g)))] in
  let params :=
    if PyStr.endswith (PyStr.rstrip "/" (resource g)) "geo"
    then dict_set "key" (api_key g) params
    else params in
  Ok params.

(** [self.url % urlencode(params)]. *)
Definition build_url (g : Google) (params : dict) : Res string :=
  str_mod (url g) (VStr (urlencode params)).

(** *** Operations on values that the JSON parser applies *)

(** [v == n] for an integer literal [n]. *)
Definition py_eq_int (v : Val) (n : Z) : bool :=
  match v with
  | VInt z => Z.eqb z n
  | VFloat f => float_eq_Z f n
  | VBool b => Z.eqb (if b then 1 else 0) n
  | _ => false
  end.

Fixpoint lookup (k : string) (m : list (string * Val)) : option Val :=
  match m with
  | [] => None
  | (k', v) :: m' => if k' =? k then Some v else lookup k m'
  end.

(** [v.get(k, default)]: only a dict has the method. *)
Definition py_get (v : Val) (k : string) (default : Val) : Res Val :=
  match v with
  | VDict m => Ok (match lookup k m with Some x => x | None => default end)
  | _ => Raise AttributeError
  end.

(** [v[k]] for a string key. *)
Definition py_getitem (v : Val) (k : string) : Res Val :=
  match v with
  | VDict m => match lookup k m with Some x => Ok x | None => Raise KeyError end
  | _ => Raise TypeError
  end.

Fixpoint chars (s : string) : list Val :=
  match s with
  | EmptyString => []
  | String a s' => VStr (String a EmptyString) :: chars s'
  end.

(** The items of [v[:2]], for the sequences that can be sliced. *)
Definition py_slice2 (v : Val) : Res (list Val) :=
  match v with
  | VList l => Ok (firstn 2 l)
  | VStr s => Ok (firstn 2 (chars s))
  | _ => Raise TypeError
  end.

(** [a, b = items]. *)
Definition py_unpack2 (items : list Val) : Res (Val * Val) :=
  match items with
  | [a; b] => Ok (a, b)
  | _ => Raise (ValueError None)
  end.

(** [len(v)]. *)
Definition py_len (v : Val) : Res nat :=
  match v with
  | VList l => Ok (List.length l)
  | VStr s => Ok (String.length s)
  | VDict m => Ok (List.length m)
  | _ => Raise TypeError
  end.

(** [v[0]]. *)
Definition py_first (v : Val) : Res Val :=
  match v with
  | VList (x :: _) => Ok x
  | VList [] => Raise IndexError
  | VStr (String a _) => Ok (VStr (String a EmptyString))
  | VStr EmptyString => Raise IndexError
  | VDict _ => Raise KeyError
  | _ => Raise TypeError
  end.

(** [iter(v)], as the generator expression takes it when it is created. *)
Definition py_iter (v : Val) : Res (list Val) :=
  match v with
  | VList l => Ok l
  | VStr s => Ok (chars s)
  | VDict m => Ok (map (fun kv => VStr (fst kv)) m)
  | _ => Raise TypeError
  end.

Definition val_of_opt (o : option string) : Val :=
  match o with
  | Some s => VStr s
  | None => VNone
  end.

(** [x or None] for [x] a string or [None]. *)
Definition or_none (o : option string) : option string :=
  match o with
  | Some (String a s) => Some (String a s)
  | _ => None
  end.

(** [[float(f) for f in l]]. *)
Fixpoint floats (l : list string) : Res (list float) :=
  match l with
  | [] => Ok []
  | s :: l' =>
      match float_of_str s with
      | None => Raise (ValueError None)
      | Some f => fs <~ floats l' ;; Ok (f :: fs)
      end
  end.

(** ["Didn't find exactly one placemark! (Found %d.)" % n]. *)
Definition not_one_placemark (n : nat) : Exc :=
  ValueError (Some ("Didn't find exactly one placemark! (Found " ++ PyStr.of_nat n ++ ".)")).

(** ["Didn't find exactly one marker! (Found %d.)" % n]. *)
Definition not_one_marker (n : nat) : Exc :=
  ValueError (Some ("Didn't find exactly one marker! (Found " ++ PyStr.of_nat n ++ ".)")).

(** *** Lines 140 to 166: [parse_json] *)

(** The nested [parse_place] of [parse_json]. *)
Definition json_parse_place (place : Val) : Res Result :=
  location <~ py_get place "address" VNone ;;
  point <~ py_getitem place "Point" ;;
  coordinates <~ py_getitem point "coordinates" ;;
  first_two <~ py_slice2 coordinates ;;
  lon_lat <~ py_unpack2 first_two ;;
  let (longitude, latitude) := lon_lat in
  details <~ py_get place "AddressDetails" (VDict []) ;;
  country <~ py_get details "Country" (VDict []) ;;
  area <~ py_get country "AdministrativeArea" (VDict []) ;;
  loc <~ py_get area "Locality" (VDict []) ;;
  locality <~ py_get loc "LocalityName" VNone ;;
  details <~ py_get place "AddressDetails" (VDict []) ;;
  country <~ py_get details "Country" (VDict []) ;;
  area <~ py_get country "AdministrativeArea" (VDict []) ;;
  administrative <~ py_get area "AdministrativeAreaName" VNone ;;
  details <~ py_get place "AddressDetails" (VDict []) ;;
  accuracy <~ py_get details "Accuracy" VNone ;;
  Ok {| location := location; latitude := latitude; longitude := longitude;
        extension := Some {| locality := locality;
                             administrative := administrative;
                             accuracy := accuracy |} |}.

(** Lines 143 to 146: the status of a decoded response. *)
Definition json_status (json : Val) : Res Val :=
  st <~ py_get json "Status" (VDict []) ;;
  py_get st "code" VNone.

Definition parse_json (page : Page) (exactly_one reverse : bool)
  : M (Returned float exactly_one) :=
  let page := page_text page in
  json <- lift (loads page) ;;
  status <- lift (json_status json) ;;
  if negb (py_eq_int status 200) then raise (GeoStatusError status) else
  places <- lift (py_get json "Placemark" (VList [])) ;;
  not_one <- (if exactly_one
              then lift (n <~ py_len places ;; Ok (negb (n =? 1)%nat))
              else ret false) ;;
  if not_one && negb reverse
  then n <- lift (py_len places) ;; raise (not_one_placemark n)
  else
    match exactly_one return M (Returned float exactly_one) with
    | true => place <- lift (py_first places) ;; lift (json_parse_place place)
    | false => items <- lift (py_iter places) ;; ret (GenJson items)
    end.

(** *** Lines 134 to 135: [parse_csv] *)

Definition parse_csv (page : Page) (exactly_one reverse : bool)
  : M (Returned float exactly_one) :=
  raise NotImplementedError.

(** *** Lines 168 to 202: [parse_js] *)

Definition LATITUDE : string := "[\s,]lat:\s*(?P<latitude>-?\d+\.\d+)".
Definition LONGITUDE : string := "[\s,]lng:\s*(?P<longitude>-?\d+\.\d+)".
Definition LOCATION : string := "[\s,]laddr:\s*'(?P<location>.*?)(?<!\\)',".
Definition ADDRESS : string := "(?P<address>.*?)(?:(?: \(.*?@)|$)".
Definition MARKER : string := PyStr.join ".*?" [LATITUDE; LONGITUDE; LOCATION].
Definition MARKERS : string := "{markers: (?P<markers>\[.*?\]),\s*polylines:".

(** Lines 186 to 188 of the nested [parse_marker], once [re] has been
    looked up. *)
Definition parse_marker_body (marker : string * string * string) : M Result :=
  let '(latitude, longitude, location) := marker in
  match re_match ADDRESS "address" location with
  | None => raise AttributeError
  | Some location =>
      match float_of_str latitude with
      | None => raise (ValueError None)
      | Some latitude =>
          match float_of_str longitude with
          | None => raise (ValueError None)
          | Some longitude =>
              ret {| location := VStr location; latitude := VFloat latitude;
                     longitude := VFloat longitude; extension := None |}
          end
      end
  end.

(** The nested [parse_marker]; [re] is looked up when the body runs. *)
Definition parse_marker (marker : string * string * string) : M Result :=
  global "re" ;;;
  parse_marker_body marker.

Definition parse_js (page : Page) (exactly_one reverse : bool)
  : M (Returned float exactly_one) :=
  let page := page_text page in
  global "re" ;;;
  let markers := match re_search MARKERS "markers" page with
                 | Some (String a s) => String a s
                 | _ => EmptyString
                 end in
  global "re" ;;;
  let markers := re_findall MARKER markers in
  match exactly_one return M (Returned float exactly_one) with
  | true =>
      if negb (List.length markers =? 1)%nat && negb reverse
      then raise (not_one_marker (List.length markers))
      else match markers with
           | marker :: _ => parse_marker marker
           | [] => raise IndexError
           end
  | false => ret (GenJs markers)
  end.

(** *** Lines 101 to 138 and 62 to 99: [parse_xml], [geocode_url],
    [geocode], [reverse]

    [parse_place] calls [self.geocode(location)], which comes back to
    [parse_xml]: the methods are first written over the nested call. *)

Section Methods.

(** [self.geocode(location)] with every default. *)
Variable nested_geocode : Val -> M Result.

(** Lines 106 to 111: the placemarks of a page. *)
Definition xml_places (page : string) : Res (list Dom.Node) :=
  match parseString page with
  | Raise ExpatError => Ok []
  | Raise e => Raise e
  | Ok doc => Ok (Dom.doc_getElementsByTagName "Placemark" doc)
  end.

(** The nested [parse_place] of [parse_xml]. *)
Definition xml_parse_place (place : Dom.Node) : M Result :=
  let location := or_none (Util.get_first_text (Some place) ["address"; "name"]) in
  let points := Dom.getElementsByTagName "Point" place in
  let point := hd_error points in
  let coords := or_none (Util.get_first_text point ["coordinates"]) in
  match coords with
  | Some coords =>
      fs <- lift (floats (firstn 2 (PyStr.split "," coords))) ;;
      match fs with
      | [longitude; latitude] =>
          ret {| location := val_of_opt location;
                 latitude := VFloat latitude; longitude := VFloat longitude;
                 extension := None |}
      | _ => raise (ValueError None)
      end
  | None =>
      r <- nested_geocode (val_of_opt location) ;;
      ret {| location := val_of_opt location;
             latitude := latitude r; longitude := longitude r;
             extension := None |}
  end.

Definition parse_xml (page : Page) (exactly_one reverse : bool)
  : M (Returned float exactly_one) :=
  let page := page_text page in
  places <- lift (xml_places page) ;;
  if (exactly_one && negb (List.length places =? 1)%nat) && negb reverse
  then raise (not_one_placemark (List.length places))
  else
    match exactly_one return M (Returned float exactly_one) with
    | true =>
        match places with
        | place :: _ => xml_parse_place place
        | [] => raise IndexError
        end
    | false => ret (GenXml places)
    end.

Definition parse_kml (page : Page) (exactly_one reverse : bool)
  : M (Returned float exactly_one) :=
  parse_xml page exactly_one reverse.

(** [getattr(self, 'parse_' + self.output_format)]. *)
Definition dispatch (name : string) (page : Page) (exactly_one reverse : bool)
  : M (Returned float exactly_one) :=
  if name =? "parse_xml" then parse_xml page exactly_one reverse
  else if name =? "parse_csv" then parse_csv page exactly_one reverse
  else if name =? "parse_kml" then parse_kml page exactly_one reverse
  else if name =? "parse_json" then parse_json page exactly_one reverse
  else if name =? "parse_js" then parse_js page exactly_one reverse
  else raise AttributeError.

Definition geocode_url (url : string) (exactly_one reverse : bool)
  : M (Returned float exactly_one) :=
  log_info ("Fetching " ++ url ++ "...") ;;;
  page <- fetch url ;;
  this <- get_self ;;
  dispatch ("parse_" ++ output_format this) (PageObj page) exactly_one reverse.

Definition geocode_body (query : Val) (exactly_one : bool)
    (language_code : option string) (sensor : bool)
    (viewport_center viewport_span : option string)
  : M (Returned float exactly_one) :=
  this <- get_self ;;
  params <- lift (geocode_params this query language_code sensor
                    viewport_center viewport_span) ;;
  this <- get_self ;;
  url <- lift (build_url this params) ;;
  geocode_url url exactly_one false.

Definition reverse_body (coord : Val * Val) (exactly_one : bool)
  : M (Returned float exactly_one) :=
  this <- get_self ;;
  params <- lift (reverse_params this coord) ;;
  this <- get_self ;;
  url <- lift (build_url this params) ;;
  geocode_url url exactly_one true.

(** Consuming a generator to its end: [list(g)]. *)
Fixpoint each {A} (f : A -> M Result) (l : list A) : M (list Result) :=
  match l with
  | [] => ret []
  | x :: l' => r <- f x ;; rs <- each f l' ;; ret (r :: rs)
  end.

Definition consume_body (g : Generator float) : M (list Result) :=
  match g with
  | GenXml places => each xml_parse_place places
  | GenJson places => each (fun place => lift (json_parse_place place)) places
  | GenJs markers => each parse_marker markers
  end.

End Methods.

(** The nested call at a given distance from the interpreter's recursion
    limit: at the limit the call raises [RuntimeError]. *)
Fixpoint geocode_nested (depth : nat) (query : Val) : M Result :=
  match depth with
  | O => raise RuntimeError
  | S d => geocode_body (geocode_nested d) query true None false None None
  end.

(** [Google.geocode], with [depth] nested calls left before the
    recursion limit. *)
Definition geocode (depth : nat) (query : Val) (exactly_one : bool)
    (language_code : option string) (sensor : bool)
    (viewport_center viewport_span : option string)
  : M (Returned float exactly_one) :=
  geocode_body (geocode_nested depth) query exactly_one language_code sensor
    viewport_center viewport_span.

(** [Google.reverse]. *)
Definition reverse (depth : nat) (coord : Val * Val) (exactly_one : bool)
  : M (Returned float exactly_one) :=
  reverse_body (geocode_nested depth) coord exactly_one.

(** [list(g)] for a generator that a call returned. *)
Definition consume (depth : nat) (g : Generator float) : M (list Result) :=
  consume_body (geocode_nested depth) g.

End Client.

Arguments geocode_nested {P} depth query _.
Arguments geocode {P} depth query exactly_one language_code sensor
  viewport_center viewport_span _.
Arguments reverse {P} depth coord exactly_one _.
Arguments consume {P} depth g _.

(* ===================================================================== *)
(** ** re: the constructs of the [ADDRESS] pattern

    A backtracking matcher for the few constructs that [ADDRESS] is made
    of, with Python's preference order: the left alternative first, the
    shorter repetition first. *)
(* ===================================================================== *)

Module Re.

Inductive regex : Type :=
| Chr (a : ascii)                    (* a literal character *)
| LazyDots                           (* [.*?] *)
| Dollar                             (* [$] *)
| Seq (r1 r2 : regex)                (* r1 r2 *)
| Alt (r1 r2 : regex)                (* r1|r2 *)
| Group (name : string) (r : regex). (* (?P<name>r) *)

Definition captures : Type := list (string * string).

Definition newline : ascii := ascii_of_nat 10.

(** [$] without [re.MULTILINE]: at the end, or before a final newline. *)
Definition at_end (s : string) : bool :=
  match s with
  | EmptyString => true
  | String a EmptyString => Ascii.eqb a newline
  | _ => false
  end.

(** [.*?] before the continuation [k]: as few characters as [k] accepts,
    none of them a newline. *)
Fixpoint lazy_dots {A} (s : string) (k : string -> option A) : option A :=
  match k s with
  | Some x => Some x
  | None =>
      match s with
      | String a s' => if Ascii.eqb a newline then None else lazy_dots s' k
      | EmptyString => None
      end
  end.

(** The text of [s] in front of its suffix [rest]. *)
Definition consumed (s rest : string) : string :=
  substring 0 (String.length s - String.length rest) s.

(** Matching [r] at the start of [s], then [k] on what is left. *)
Fixpoint run (r : regex) (s : string) (caps : captures)
    (k : string -> captures -> option captures) : option captures :=
  match r with
  | Chr a =>
      match s with
      | String b s' => if Ascii.eqb a b then k s' caps else None
      | EmptyString => None
      end
  | LazyDots => lazy_dots s (fun s' => k s' caps)
  | Dollar => if at_end s then k s caps else None
  | Seq r1 r2 => run r1 s caps (fun s' caps' => run r2 s' caps' k)
  | Alt r1 r2 =>
      match run r1 s caps k with
      | Some c => Some c
      | None => run r2 s caps k
      end
  | Group name r => run r s caps (fun s' caps' => k s' ((name, consumed s s') :: caps'))
  end.

(** [re.match(r, s)]: a match at the start of [s], whatever follows. *)
Definition match_ (r : regex) (s : string) : option captures :=
  run r s [] (fun _ caps => Some caps).

(** [m.group(name)]. *)
Fixpoint group (name : string) (caps : captures) : option string :=
  match caps with
  | [] => None
  | (n, text) :: caps' => if n =? name then Some text else group name caps'
  end.

(** The pattern [(?P<address>.*?)(?:(?: \(.*?@)|$)]. *)
Definition address_pattern : regex :=
  Seq (Group "address" LazyDots)
      (Alt (Seq (Chr " ") (Seq (Chr "(") (Seq LazyDots (Chr "@")))) Dollar).

(** [re.match(ADDRESS, location).group('address')]. *)
Definition address (location : string) : option string :=
  match match_ address_pattern location with
  | Some caps => group "address" caps
  | None => None
  end.

(** The continuation of [.*?] in [.*?@]. *)
Definition then_at (caps : captures) (k : string -> captures -> option captures)
  : string -> option captures :=
  fun s => run (Chr "@") s caps k.

(** What follows the address group: [ (], anything, [@]; or the end. *)
Definition suffix_pattern : regex :=
  Alt (Seq (Chr " ") (Seq (Chr "(") (Seq LazyDots (Chr "@")))) Dollar.

(** The suffix pattern, by the first two characters of the text. *)
Definition marker_then_at (s : string) (caps : captures)
    (k : string -> captures -> option captures) : option captures :=
  match s with
  | String a (String b r) =>
      if Ascii.eqb " " a && Ascii.eqb "(" b
      then run (Seq LazyDots (Chr "@")) r caps k
      else None
  | _ => None
  end.

End Re.

(* ===================================================================== *)
(** ** A concrete platform for running the client

    Small stand-ins for the collaborators, enough to run the methods on
    concrete pages: decimal literals for floats, the [%s] and [%%]
    directives, a parser for tags and text, canned JSON documents, a canned
    server and [re.match] for the [ADDRESS] pattern. *)
(* ===================================================================== *)

Module Fixture.
Import Dom.

(** A decimal [mantissa / 10 ^ scale]. *)
Definition decimal : Type := (Z * nat)%type.

Definition digit_value (a : ascii) : option Z :=
  if Urllib.is_digit a then Some (Z.of_nat (nat_of_ascii a) - 48)%Z else None.

(** Digits with at most one point, read left to right. *)
Fixpoint read_digits (s : string) (seen_point : bool) (acc : Z) (scale : nat)
  : option decimal :=
  match s with
  | EmptyString => Some (acc, scale)
  | String a s' =>
      if Ascii.eqb a "." then
        if seen_point then None else read_digits s' true acc scale
      else
        match digit_value a with
        | Some d => read_digits s' seen_point (10 * acc + d)%Z
                      (if seen_point then S scale else scale)
        | None => None
        end
  end.

Definition read_decimal (s : string) : option decimal :=
  match s with
  | EmptyString => None
  | String "-" s' =>
      match s' with
      | EmptyString => None
      | _ => option_map (fun d => (Z.opp (fst d), snd d)) (read_digits s' false 0%Z O)
      end
  | _ => read_digits s false 0%Z O
  end.

Definition decimal_eq_Z (d : decimal) (n : Z) : bool :=
  Z.eqb (fst d) (n * 10 ^ Z.of_nat (snd d))%Z.

(** [str(v)] for the values the fixture formats. *)
Definition render (v : PyVal decimal) : option string :=
  match v with
  | VNone => Some "None"
  | VStr s => Some s
  | VBool b => Some (PyStr.of_bool b)
  | _ => None
  end.

(** [fmt % arg] for formats made of text, [%s] and [%%]: one [%s] takes
    the argument; none, or a second one, is a [TypeError]. *)
Fixpoint interpolate (fmt : string) (arg : option string) : Outcome decimal string :=
  match fmt with
  | EmptyString =>
      match arg with
      | Some _ => Raise TypeError
      | None => Ok EmptyString
      end
  | String "%" (String "s" rest) =>
      match arg with
      | Some text =>
          match interpolate rest None with
          | Ok out => Ok (text ++ out)
          | Raise e => Raise e
          end
      | None => Raise TypeError
      end
  | String "%" (String "%" rest) =>
      match interpolate rest arg with
      | Ok out => Ok (String "%" out)
      | Raise e => Raise e
      end
  | String "%" _ => Raise (ValueError None)
  | String a rest =>
      match interpolate rest arg with
      | Ok out => Ok (String a out)
      | Raise e => Raise e
      end
  end.

Definition fixture_mod (fmt : string) (arg : PyVal decimal) : Outcome decimal string :=
  match render arg with
  | Some text => interpolate fmt (Some text)
  | None => Raise TypeError
  end.

(** Tokens of a document without attributes, comments or entities. *)
Inductive Token : Type :=
| TOpen (tag : string)
| TClose (tag : string)
| TEmpty (tag : string)
| TText (data : string).

Fixpoint last_char (s : string) : option ascii :=
  match s with
  | EmptyString => None
  | String a EmptyString => Some a
  | String _ s' => last_char s'
  end.

Fixpoint drop_last (s : string) : string :=
  match s with
  | EmptyString => EmptyString
  | String _ EmptyString => EmptyString
  | String a s' => String a (drop_last s')
  end.

Definition tag_token (inner : string) : option Token :=
  match inner with
  | EmptyString => None
  | String "/" name => Some (TClose name)
  | _ =>
      match last_char inner with
      | Some "/"%char => Some (TEmpty (drop_last inner))
      | _ => Some (TOpen inner)
      end
  end.

Definition text_token (acc : string) : list Token :=
  match acc with
  | EmptyString => []
  | _ => [TText acc]
  end.

Fixpoint tokens (s : string) (in_tag : bool) (acc : string) : option (list Token) :=
  match s with
  | EmptyString => if in_tag then None else Some (text_token acc)
  | String a s' =>
      if in_tag then
        if Ascii.eqb a ">" then
          match tag_token acc, tokens s' false EmptyString with
          | Some t, Some ts => Some (t :: ts)
          | _, _ => None
          end
        else if Ascii.eqb a "<" then None
        else tokens s' true (acc ++ String a EmptyString)
      else
        if Ascii.eqb a "<" then
          match tokens s' true EmptyString with
          | Some ts => Some (text_token acc ++ ts)%list
          | None => None
          end
        else tokens s' false (acc ++ String a EmptyString)
  end.

(** [stack] holds the open elements, innermost first, each with the
    children its parent had collected; [children] those of the innermost
    open element, latest first. *)
Fixpoint build (ts : list Token) (stack : list (string * list Node))
    (children : list Node) : option (list Node) :=
  match ts with
  | [] => match stack with [] => Some (rev children) | _ => None end
  | TOpen t :: ts' => build ts' ((t, children) :: stack) []
  | TEmpty t :: ts' => build ts' stack (Element t [] :: children)
  | TText d :: ts' => build ts' stack (Text d :: children)
  | TClose t :: ts' =>
      match stack with
      | (t', siblings) :: stack' =>
          if t' =? t then build ts' stack' (Element t (rev children) :: siblings)
          else None
      | [] => None
      end
  end.

Definition parse_document (page : string) : Outcome decimal Document :=
  match tokens page false EmptyString with
  | Some ts =>
      match build ts [] [] with
      | Some [Element t cs] => Ok {| documentElement := Element t cs |}
      | _ => Raise ExpatError
      end
  | None => Raise ExpatError
  end.

Fixpoint canned {A} (table : list (string * A)) (key : string) : option A :=
  match table with
  | [] => None
  | (k, v) :: table' => if k =? key then Some v else canned table' key
  end.

(** The platform over canned JSON documents (by page text) and a canned
    server (by URL). *)
Definition platform (documents : list (string * PyVal decimal))
    (server : list (string * string)) : Platform :=
  {| float := decimal;
     float_of_str := read_decimal;
     float_eq_Z := decimal_eq_Z;
     str_mod := fixture_mod;
     dict_items := fun d => d;
     dict_items_perm := fun d => Permutation_refl d;
     parseString := parse_document;
     loads := fun page =>
       match canned documents page with
       | Some v => Ok v
       | None => Raise (ValueError None)
       end;
     urlopen := fun _ url =>
       match canned server url with
       | Some text => Ok {| Util.body := text |}
       | None => Raise (OtherError "URLError")
       end;
     re_search := fun _ _ _ => None;
     re_findall := fun _ _ => [];
     re_match := fun pattern name text =>
       if pattern =? ADDRESS
       then match Re.match_ Re.address_pattern text with
            | Some caps => Re.group name caps
            | None => None
            end
       else None |}.

Definition world (g : Google) : World :=
  {| self := g; log := []; requests := [] |}.

End Fixture.

(* ===================================================================== *)
(** ** Pages, documents and a server to run the client on *)
(* ===================================================================== *)

Module Demo.

Definition dq : string := String (ascii_of_nat 34) EmptyString.

(** A JSON member name or string, in its quotes. *)
Definition js (s : string) : string := dq ++ s ++ dq.

(** A response that reports status 602 and, all the same, a placemark. *)
Definition unknown_address_page : string :=
  "{" ++ js "Status" ++ ":{" ++ js "code" ++ ":602}," ++ js "Placemark" ++ ":[{"
      ++ js "address" ++ ":" ++ js "Nowhere" ++ "}]}".

Definition unknown_address_json : PyVal Fixture.decimal :=
  VDict [("Status", VDict [("code", VInt 602)]);
         ("Placemark", VList [VDict [("address", VStr "Nowhere")]])].

(** A response with status 200 and no placemark. *)
Definition empty_page : string :=
  "{" ++ js "Status" ++ ":{" ++ js "code" ++ ":200}," ++ js "Placemark" ++ ":[]}".

Definition empty_json : PyVal Fixture.decimal :=
  VDict [("Status", VDict [("code", VInt 200)]); ("Placemark", VList [])].

(** A response with status 200 and two placemarks. *)
Definition two_places_page : string :=
  "{" ++ js "Status" ++ ":{" ++ js "code" ++ ":200}," ++ js "Placemark" ++ ":[{"
      ++ js "address" ++ ":" ++ js "1 A St" ++ "," ++ js "Point" ++ ":{"
      ++ js "coordinates" ++ ":[-122,37,0]}},{"
      ++ js "address" ++ ":" ++ js "A Town" ++ "," ++ js "Point" ++ ":{"
      ++ js "coordinates" ++ ":[-121,38,0]}}]}".

Definition place_a : PyVal Fixture.decimal :=
  VDict [("address", VStr "1 A St");
         ("Point", VDict [("coordinates", VList [VInt (-122); VInt 37; VInt 0])])].

Definition place_b : PyVal Fixture.decimal :=
  VDict [("address", VStr "A Town");
         ("Point", VDict [("coordinates", VList [VInt (-121); VInt 38; VInt 0])])].

Definition two_places_json : PyVal Fixture.decimal :=
  VDict [("Status", VDict [("code", VInt 200)]); ("Placemark", VList [place_a; place_b])].

Definition documents : list (string * PyVal Fixture.decimal) :=
  [(unknown_address_page, unknown_address_json);
   (empty_page, empty_json);
   (two_places_page, two_places_json)].

(** The placemark of the spec's end-to-end scenario. *)
Definition amphitheatre_page : string :=
  "<kml><Response><Placemark><address>1600 Amphitheatre Pkwy, Mountain View, CA</address><Point><coordinates>-122.084,37.422,0</coordinates></Point></Placemark></Response></kml>".

Definition amphitheatre_place : Dom.Node :=
  Dom.Element "Placemark"
    [Dom.Element "address" [Dom.Text "1600 Amphitheatre Pkwy, Mountain View, CA"];
     Dom.Element "Point" [Dom.Element "coordinates" [Dom.Text "-122.084,37.422,0"]]].

(** A placemark with a name and no point. *)
Definition somewhere_page : string :=
  "<kml><Placemark><name>Somewhere</name></Placemark></kml>".

Definition somewhere_place : Dom.Node :=
  Dom.Element "Placemark" [Dom.Element "name" [Dom.Text "Somewhere"]].

Definition somewhere_answer : string :=
  "<kml><Placemark><name>Elsewhere</name><Point><coordinates>1.5,2.5</coordinates></Point></Placemark></kml>".

Definition no_placemark_page : string := "<kml></kml>".

Definition malformed_page : string := "<kml><Placemark></kml>".

Definition server : list (string * string) :=
  [("http://maps.google.com/maps/geo?q=1600+Amphitheatre+Parkway&output=kml&sensor=false&key=None",
    amphitheatre_page);
   ("http://maps.google.com/maps/geo?q=nowhere&output=kml&sensor=false&key=None",
    somewhere_page);
   ("http://maps.google.com/maps/geo?q=Somewhere&output=kml&sensor=false&key=None",
    somewhere_answer);
   ("http://maps.google.com/maps/geo?q=0.0%2C0.0&output=kml&key=None",
    no_placemark_page)].

Definition platform : Platform := Fixture.platform documents server.

Definition world : World := Fixture.world default_google.

(** The same receiver asking for the JavaScript format. *)
Definition js_world : World :=
  Fixture.world {| api_key := None; domain := "maps.google.com"; resource := "maps";
                   format_string := "%s"; output_format := "js" |}.

(** A plain [(location, (latitude, longitude))] over decimals. *)
Definition result (label : string) (lat lon : Fixture.decimal)
  : GeoResult Fixture.decimal :=
  {| location := VStr label; latitude := VFloat lat; longitude := VFloat lon;
     extension := None |}.

(** The marker of the label example, as [re.findall] would return it. *)
Definition labelled_marker : string * string * string :=
  ("37.422", "-122.084", "123 Main St (via Acme@example)").

(** The marker page of the label example. *)
Definition marker_page : string :=
  "{markers: [{id:'A', lat: 37.422, lng: -122.084, laddr:'123 Main St (via Acme@example)',}], polylines: []}".

End Demo.

(* ===================================================================== *)
(** ** Notions that the statements use *)
(* ===================================================================== *)

Section Notions.

Context {P : Platform}.

(** A call of one of the two public operations, as far as the URL
    builder reads its arguments. *)
Inductive Call : Type :=
| Geocode (query : PyVal float) (language_code : option string) (sensor : bool)
          (viewport_center viewport_span : option string)
| Reverse (coord : PyVal float * PyVal float).

(** The parameter dict that the call hands to [urlencode]. *)
Definition call_params (g : Google) (c : Call) : Outcome float dict :=
  match c with
  | Geocode query language_code sensor viewport_center viewport_span =>
      geocode_params g query language_code sensor viewport_center viewport_span
  | Reverse coord => reverse_params g coord
  end.

(** The names of the parameters in the query string of the built URL. *)
Definition url_param_names (params : dict) : list string :=
  Urllib.param_names (urlencode params).

(** A relation between the state before a computation and the state after
    it holds whatever the outcome. *)
Definition steady (R : World -> World -> Prop) {A} (c : M A) : Prop :=
  forall w, R w (snd (c w)).

(** The receiver is as it was. *)
Definition same_self (w w' : World) : Prop := self w' = self w.

(** Requests were only added. *)
Definition requests_grow (w w' : World) : Prop :=
  exists more, requests w' = (more ++ requests w)%list.

(** The label of a placemark as [parse_place] computes it. *)
Definition label_text (place : Dom.Node) : option string :=
  or_none (Util.get_first_text (Some place) ["address"; "name"]).

(** The coordinate text of a placemark as [parse_place] computes it:
    that of its first [Point]. *)
Definition coordinate_text (place : Dom.Node) : option string :=
  or_none (Util.get_first_text
             (hd_error (Dom.getElementsByTagName "Point" place)) ["coordinates"]).

(** The first non-empty of the given texts. *)
Fixpoint first_non_empty (texts : list (option string)) : option string :=
  match texts with
  | [] => None
  | Some (String a s) :: _ => Some (String a s)
  | _ :: rest => first_non_empty rest
  end.

(** An outcome that is not the module's status error. *)
Definition no_status_error {A} (o : Outcome float A) : Prop :=
  forall s, o <> Raise (GeoStatusError s).

(** Whether the call is a reverse lookup. *)
Definition is_reverse (c : Call) : bool :=
  match c with
  | Reverse _ => true
  | Geocode _ _ _ _ _ => false
  end.

(** The call itself: [geocode] or [reverse] with its arguments. *)
Definition perform (depth : nat) (c : Call) (exactly_one : bool)
  : M (Returned float exactly_one) :=
  match c with
  | Geocode query language_code sensor viewport_center viewport_span =>
      geocode depth query exactly_one language_code sensor viewport_center viewport_span
  | Reverse coord => reverse depth coord exactly_one
  end.

(** The record that [geocode_url] logs for a URL. *)
Definition fetch_record (u : string) : string := "Fetching " ++ u ++ "...".

(** The state once [u] has been logged and handed to the transport. *)
Definition requested (u : string) (w : World) : World :=
  {| self := self w; log := fetch_record u :: log w; requests := u :: requests w |}.

(** Requests were only added, each with its log record and nothing else
    logged. *)
Definition logged_requests (w w' : World) : Prop :=
  exists us,
    requests w' = (us ++ requests w)%list /\
    log w' = (map fetch_record us ++ log w)%list.

(** A computation adds at most [n] requests. *)
Definition adds_at_most (n : nat) {A} (c : M A) : Prop :=
  forall w, exists us,
    requests (snd (c w)) = (us ++ requests w)%list /\ List.length us <= n.

(** The parameter names that [geocode] puts together. *)
Definition geocode_names (g : Google) (language_code viewport_center viewport_span : option string)
  : list string :=
  (["q"; "output"; "sensor"]
   ++ (if opt_truthy language_code then ["gl"] else [])
   ++ (if opt_truthy viewport_center && opt_truthy viewport_span then ["ll"; "spn"] else [])
   ++ (if PyStr.endswith (PyStr.rstrip "/" (resource g)) "geo" then ["key"] else []))%list.

(** The parameter names that [reverse] puts together. *)
Definition reverse_names (g : Google) : list string :=
  (["q"; "output"]
   ++ (if PyStr.endswith (PyStr.rstrip "/" (resource g)) "geo" then ["key"] else []))%list.

(** [n] slashes. *)
Fixpoint slashes (n : nat) : string :=
  match n with
  | O => EmptyString
  | S n' => String "/" (slashes n')
  end.

(** The receiver with slashes put around its domain and its resource. *)
Definition with_outer_slashes (g : Google) (a b c d : nat) : Google :=
  {| api_key := api_key g;
     domain := slashes a ++ domain g ++ slashes b;
     resource := slashes c ++ resource g ++ slashes d;
     format_string := format_string g;
     output_format := output_format g |}.

(** The parameter names of a call. *)
Definition call_names (g : Google) (c : Call) : list string :=
  match c with
  | Geocode _ language_code _ viewport_center viewport_span =>
      geocode_names g language_code viewport_center viewport_span
  | Reverse _ => reverse_names g
  end.

(** The formats for which the class has a [parse_] method. *)
Definition known_formats : list string := ["xml"; "csv"; "kml"; "json"; "js"].

End Notions.

(* ===================================================================== *)
(** ** More pages and receivers *)
(* ===================================================================== *)

Module More.

(** A receiver whose format string has no slot for the query. *)
Definition slotless : Google :=
  {| api_key := None; domain := "maps.google.com"; resource := "maps/geo";
     format_string := "Main St"; output_format := "kml" |}.

(** A receiver that spells its format in capitals. *)
Definition capitals : Google :=
  {| api_key := None; domain := "maps.google.com"; resource := "maps/geo";
     format_string := "%s"; output_format := "KML" |}.

(** A JSON response that has placemarks and no status. *)
Definition statusless_page : string :=
  "{" ++ Demo.js "Placemark" ++ ":[]}".

Definition statusless_json : PyVal Fixture.decimal :=
  VDict [("Placemark", VList [])].

Definition platform : Platform :=
  Fixture.platform ((statusless_page, statusless_json) :: Demo.documents) Demo.server.

(** A JSON placemark whose address details are null. *)
Definition null_details_place : PyVal Fixture.decimal :=
  VDict [("address", VStr "1 A St");
         ("Point", VDict [("coordinates", VList [VInt (-122); VInt 37; VInt 0])]);
         ("AddressDetails", VNone)].

(** What the first placemark of the two-place response parses to. *)
Definition place_a_result : GeoResult Fixture.decimal :=
  {| location := VStr "1 A St"; latitude := VInt 37; longitude := VInt (-122);
     extension := Some {| locality := VNone; administrative := VNone;
                          accuracy := VNone |} |}.

(** A JSON placemark without a point. *)
Definition pointless_place : PyVal Fixture.decimal :=
  VDict [("address", VStr "Nowhere")].

(** An XML page with two named placemarks. *)
Definition two_placemarks_page : string :=
  "<kml><Placemark><name>A</name></Placemark><Placemark><name>B</name></Placemark></kml>".

Definition placemark_a : Dom.Node :=
  Dom.Element "Placemark" [Dom.Element "name" [Dom.Text "A"]].

Definition placemark_b : Dom.Node :=
  Dom.Element "Placemark" [Dom.Element "name" [Dom.Text "B"]].

(** A placemark whose coordinate text has a single component. *)
Definition half_coordinated_place : Dom.Node :=
  Dom.Element "Placemark"
    [Dom.Element "name" [Dom.Text "Somewhere"];
     Dom.Element "Point" [Dom.Element "coordinates" [Dom.Text "-122.084"]]].

(** A placemark with nothing in it. *)
Definition bare_place : Dom.Node := Dom.Element "Placemark" [].

(** The URL of the end-to-end scenario and the parameters behind it. *)
Definition amphitheatre_call : @Call Demo.platform :=
  Geocode (VStr "1600 Amphitheatre Parkway") None false None None.

Definition amphitheatre_params : dict :=
  [("q", Some "1600 Amphitheatre Parkway"); ("output", Some "kml");
   ("sensor", Some "false"); ("key", None)].

Definition amphitheatre_url : string :=
  "http://maps.google.com/maps/geo?q=1600+Amphitheatre+Parkway&output=kml&sensor=false&key=None".

(** A query that the canned server does not know. *)
Definition unknown_call : @Call Demo.platform :=
  Geocode (VStr "zzz") None false None None.

Definition unknown_params : dict :=
  [("q", Some "zzz"); ("output", Some "kml"); ("sensor", Some "false"); ("key", None)].

Definition unknown_url : string :=
  "http://maps.google.com/maps/geo?q=zzz&output=kml&sensor=false&key=None".

End More.


(* ===================================================================== *)
(** ** Sample runs of the helpers *)
(* ===================================================================== *)

Example quote_plus_sample :
  Urllib.quote_plus "1600 Amphitheatre Pkwy, CA/x" = "1600+Amphitheatre+Pkwy%2C+CA%2Fx".
Proof. reflexivity. Qed.

Example urlencode_sample :
  Urllib.urlencode [("q", "a b&c"); ("output", "kml")] = "q=a+b%26c&output=kml".
Proof. reflexivity. Qed.

Example param_names_sample :
  Urllib.param_names "q=a+b%26c&output=kml&key=None" = ["q"; "output"; "key"].
Proof. reflexivity. Qed.

Example rstrip_sample : PyStr.rstrip "/" "/maps/geo//" = "/maps/geo".
Proof. reflexivity. Qed.

Example strip_sample : PyStr.strip "/" "//maps/geo//" = "maps/geo".
Proof. reflexivity. Qed.

Example split_sample : PyStr.split "," "-122.084,37.422,0" = ["-122.084"; "37.422"; "0"].
Proof. reflexivity. Qed.

Example parse_document_sample :
  Fixture.parse_document "<kml><Placemark><name>x</name><Point/></Placemark></kml>"
  = Ok {| Dom.documentElement :=
            Dom.Element "kml"
              [Dom.Element "Placemark"
                 [Dom.Element "name" [Dom.Text "x"]; Dom.Element "Point" []]] |}.
Proof. reflexivity. Qed.

Example parse_document_malformed :
  Fixture.parse_document "<kml><Placemark></kml>" = Raise ExpatError.
Proof. reflexivity. Qed.

Example read_decimal_sample : Fixture.read_decimal "-122.084" = Some ((-122084)%Z, 3).
Proof. reflexivity. Qed.

Example interpolate_sample :
  Fixture.fixture_mod "http://maps.google.com/maps/geo?%s" (VStr "q=a") =
  Ok "http://maps.google.com/maps/geo?q=a".
Proof. reflexivity. Qed.

(* ===================================================================== *)
(** ** Facts about strings and query strings *)
(* ===================================================================== *)

Module StrFacts.
Import PyStr Urllib.

Lemma all_app p s t : all p (s ++ t) = all p s && all p t.
Proof.
  induction s as [|a s IH]; simpl; [reflexivity|].
  now rewrite IH, andb_assoc.
Qed.

Lemma all_not_contains p c s :
  p c = false -> all p s = true -> contains c s = false.
Proof.
  intros Hc. induction s as [|a s IH]; simpl; [reflexivity|].
  intros H. apply andb_true_iff in H as [Ha Hs].
  rewrite (IH Hs), orb_false_r.
  destruct (Ascii.eqb_spec a c) as [->|]; [congruence | reflexivity].
Qed.

Lemma contains_app c s t : contains c (s ++ t) = contains c s || contains c t.
Proof.
  induction s as [|a s IH]; simpl; [reflexivity|].
  now rewrite IH, orb_assoc.
Qed.

Lemma split_without c s : contains c s = false -> split c s = [s].
Proof.
  induction s as [|a s IH]; simpl; [reflexivity|].
  intros H. apply orb_false_iff in H as [Ha Hs].
  rewrite Ha, (IH Hs). reflexivity.
Qed.

Lemma split_at c s t :
  contains c s = false -> split c (s ++ String c t) = s :: split c t.
Proof.
  induction s as [|a s IH]; simpl; intros H.
  - now rewrite Ascii.eqb_refl.
  - apply orb_false_iff in H as [Ha Hs].
    rewrite Ha, (IH Hs). reflexivity.
Qed.

Lemma hex_digits_safe a :
  always_safe (hex_digit (nat_of_ascii a / 16)) = true /\
  always_safe (hex_digit (nat_of_ascii a mod 16)) = true.
Proof.
  destruct a as [[] [] [] [] [] [] [] []]; split; vm_compute; reflexivity.
Qed.

Lemma safe_quoted a : always_safe a = true -> quoted a = true.
Proof. intros H. unfold quoted. now rewrite H. Qed.

Lemma percent_hex_quoted a : all quoted (percent_hex a) = true.
Proof.
  destruct (hex_digits_safe a) as [H1 H2].
  unfold percent_hex. cbn [all].
  rewrite (safe_quoted _ H1), (safe_quoted _ H2). reflexivity.
Qed.

Lemma quote_none_quoted s : all quoted (quote (fun _ => false) s) = true.
Proof.
  induction s as [|a s IH]; [reflexivity|].
  cbn [quote]. rewrite orb_false_r.
  destruct (always_safe a) eqn:Ha.
  - cbn [all]. rewrite (safe_quoted _ Ha), IH. reflexivity.
  - rewrite all_app, percent_hex_quoted, IH. reflexivity.
Qed.

Lemma safe_not_space a : always_safe a = true -> Ascii.eqb a " " = false.
Proof.
  intros H. destruct (Ascii.eqb_spec a " ") as [->|]; [discriminate | reflexivity].
Qed.

Lemma quote_space_quoted s :
  all quoted (replace_char " " "+" (quote (fun a => Ascii.eqb a " ") s)) = true.
Proof.
  induction s as [|a s IH]; [reflexivity|].
  cbn [quote]. destruct (always_safe a) eqn:Ha; cbn [orb].
  - cbn [replace_char all]. rewrite (safe_not_space _ Ha), (safe_quoted _ Ha), IH.
    reflexivity.
  - destruct (Ascii.eqb_spec a " ") as [->|].
    + cbn [replace_char all]. rewrite IH. reflexivity.
    + destruct (hex_digits_safe a) as [H1 H2].
      unfold percent_hex. cbn [append replace_char all].
      rewrite (safe_not_space _ H1), (safe_not_space _ H2).
      rewrite (safe_quoted _ H1), (safe_quoted _ H2), IH. reflexivity.
Qed.

Lemma quote_plus_quoted s : all quoted (quote_plus s) = true.
Proof.
  unfold quote_plus. destruct (contains " " s).
  - apply quote_space_quoted.
  - apply quote_none_quoted.
Qed.

Lemma quote_plus_no_amp s : contains "&" (quote_plus s) = false.
Proof. apply (all_not_contains quoted); [reflexivity | apply quote_plus_quoted]. Qed.

Lemma quote_plus_no_eq s : contains "=" (quote_plus s) = false.
Proof. apply (all_not_contains quoted); [reflexivity | apply quote_plus_quoted]. Qed.

Lemma component_no_amp kv : contains "&" (component kv) = false.
Proof.
  unfold component. rewrite !contains_app, !quote_plus_no_amp. reflexivity.
Qed.

Lemma component_name kv : param_name (component kv) = quote_plus (fst kv).
Proof.
  unfold param_name, component. simpl append.
  rewrite split_at by apply quote_plus_no_eq. reflexivity.
Qed.

Lemma component_not_empty kv rest : component kv ++ rest <> EmptyString.
Proof.
  unfold component. destruct (quote_plus (fst kv)); simpl; discriminate.
Qed.

Lemma split_join_components items :
  items <> [] ->
  split "&" (join "&" (map component items)) = map component items.
Proof.
  induction items as [|kv items IH]; [congruence|]. intros _.
  destruct items as [|kv' items].
  - simpl. apply split_without, component_no_amp.
  - change (join "&" (map component (kv :: kv' :: items)))
      with (component kv ++ String "&" (join "&" (map component (kv' :: items)))).
    rewrite split_at by apply component_no_amp.
    rewrite IH by discriminate. reflexivity.
Qed.

(** The names read back from an encoded query are the quoted keys, in
    order. *)
Lemma param_names_urlencode items :
  param_names (Urllib.urlencode items) = map (fun kv => quote_plus (fst kv)) items.
Proof.
  destruct items as [|kv items]; [reflexivity|].
  unfold param_names, Urllib.urlencode.
  fold component.
  assert (Hne : join "&" (map component (kv :: items)) <> EmptyString).
  { destruct items; simpl.
    - unfold component. destruct (quote_plus (fst kv)); discriminate.
    - apply component_not_empty. }
  destruct (join "&" (map component (kv :: items))) eqn:E; [congruence|].
  rewrite <- E, split_join_components by discriminate.
  rewrite map_map. apply map_ext. intros x. apply component_name.
Qed.

End StrFacts.

(* ===================================================================== *)
(** ** The requests that the public operations build *)
(* ===================================================================== *)

Section Requests.

Context {P : Platform}.

Lemma url_param_names_spec params n :
  In n (url_param_names params) <->
  In n (map (fun kv => Urllib.quote_plus (fst kv)) params).
Proof.
  unfold url_param_names, urlencode.
  rewrite StrFacts.param_names_urlencode, map_map. cbn [fst].
  pose proof (dict_items_perm params) as Hp.
  split; intros H.
  - eapply Permutation_in; [|exact H]. now apply Permutation_map.
  - eapply Permutation_in; [|exact H]. apply Permutation_map.
    now apply Permutation_sym.
Qed.

(** [geocode] and [reverse] open the URL built from these parameters. *)
Lemma geocode_opens_built_url depth g query exactly_one language_code sensor
    viewport_center viewport_span params u w :
  self w = g ->
  geocode_params g query language_code sensor viewport_center viewport_span = Ok params ->
  build_url g params = Ok u ->
  geocode depth query exactly_one language_code sensor viewport_center viewport_span w =
  geocode_url (geocode_nested depth) u exactly_one false w.
Proof.
  intros <- Hp Hu. unfold geocode, geocode_body, bind, lift, get_self.
  rewrite Hp, Hu. reflexivity.
Qed.

Lemma reverse_opens_built_url depth g coord exactly_one params u w :
  self w = g ->
  reverse_params g coord = Ok params ->
  build_url g params = Ok u ->
  reverse depth coord exactly_one w =
  geocode_url (geocode_nested depth) u exactly_one true w.
Proof.
  intros <- Hp Hu. unfold reverse, reverse_body, bind, lift, get_self.
  rewrite Hp, Hu. reflexivity.
Qed.

End Requests.

Ltac names_in_url :=
  rewrite !url_param_names_spec; vm_compute map; cbn [In];
  intuition (try discriminate; try congruence).

Section RequestProperties.

Context {P : Platform}.

(** C5: the query string that [geocode] or [reverse] puts into the URL
    names the parameter [key] if and only if the configured resource, with
    its trailing slashes removed, ends with [geo]; this in whatever order
    the dict yields its items. *)
Theorem api_key_param_iff_geo_resource (g : Google) (c : Call) (params : dict) :
  call_params g c = Ok params ->
  (In "key" (url_param_names params) <->
   PyStr.endswith (PyStr.rstrip "/" (resource g)) "geo" = true).
Proof.
  intros H. destruct c as [query lang sensor vc vs | [lat lng]]; cbn [call_params] in H.
  - unfold geocode_params in H.
    destruct (str_mod (format_string g) query) as [q|e]; cbn [obind] in H; [|discriminate].
    injection H as <-.
    destruct (opt_truthy lang), (opt_truthy vc), (opt_truthy vs),
      (PyStr.endswith (PyStr.rstrip "/" (resource g)) "geo");
      cbn [andb]; names_in_url.
  - unfold reverse_params in H.
    destruct (str_mod (format_string g) lat) as [a|e]; cbn [obind] in H; [|discriminate].
    destruct (str_mod (format_string g) lng) as [b|e]; cbn [obind] in H; [|discriminate].
    injection H as <-.
    destruct (PyStr.endswith (PyStr.rstrip "/" (resource g)) "geo");
      names_in_url.
Qed.

(** C6: the query string that [geocode] puts into the URL names [ll], and
    likewise [spn], exactly when both [viewport_center] and
    [viewport_span] are truthy; so the two come together or not at all, and
    one argument alone puts neither in the URL. *)
Theorem viewport_params_together (g : Google) (query : PyVal float)
    (language_code : option string) (sensor : bool)
    (viewport_center viewport_span : option string) (params : dict) :
  geocode_params g query language_code sensor viewport_center viewport_span
    = Ok params ->
  (In "ll" (url_param_names params) <->
   opt_truthy viewport_center && opt_truthy viewport_span = true) /\
  (In "spn" (url_param_names params) <->
   opt_truthy viewport_center && opt_truthy viewport_span = true) /\
  (In "ll" (url_param_names params) <-> In "spn" (url_param_names params)).
Proof.
  intros H. unfold geocode_params in H.
  destruct (str_mod (format_string g) query) as [q|e]; cbn [obind] in H; [|discriminate].
  injection H as <-.
  destruct (opt_truthy language_code), (opt_truthy viewport_center),
    (opt_truthy viewport_span),
    (PyStr.endswith (PyStr.rstrip "/" (resource g)) "geo");
    cbn [andb]; (split; [|split]); names_in_url.
Qed.

End RequestProperties.

(* ===================================================================== *)
(** ** The receiver is only read *)
(* ===================================================================== *)

Create HintDb frame.

Section Steady.

Context {P : Platform}.

(** The relation between the states: it holds of a state and itself, it
    composes, and the two writes that a method can make, a log record and
    a request, satisfy it. *)
Variable R : World -> World -> Prop.
Hypothesis R_refl : forall w, R w w.
Hypothesis R_trans : forall w1 w2 w3, R w1 w2 -> R w2 w3 -> R w1 w3.
Hypothesis R_log : forall w msg,
  R w {| self := self w; log := msg :: log w; requests := requests w |}.
Hypothesis R_fetch : forall w u,
  R w {| self := self w; log := log w; requests := u :: requests w |}.

Lemma steady_ret {A} (a : A) : steady R (ret a).
Proof. intros w. apply R_refl. Qed.

Lemma steady_raise {A} e : steady R (@raise P A e).
Proof. intros w. apply R_refl. Qed.

Lemma steady_lift {A} (o : Outcome float A) : steady R (lift o).
Proof. intros w. apply R_refl. Qed.

Lemma steady_get_self : steady R get_self.
Proof. intros w. apply R_refl. Qed.

Lemma steady_log_info msg : steady R (log_info msg).
Proof. intros w. apply R_log. Qed.

Lemma steady_fetch u : steady R (fetch u).
Proof. intros w. apply R_fetch. Qed.

Lemma steady_global name : steady R (global name).
Proof. unfold global. destruct (is_bound name); intros w; apply R_refl. Qed.

Lemma steady_bind {A B} (c : M A) (k : A -> M B) :
  steady R c -> (forall a, steady R (k a)) -> steady R (bind c k).
Proof.
  intros Hc Hk w. unfold bind. specialize (Hc w).
  destruct (c w) as [[a|e] w']; cbn [snd] in *.
  - eapply R_trans; [exact Hc | apply Hk].
  - exact Hc.
Qed.

#[local] Hint Resolve steady_ret steady_raise steady_lift steady_get_self
  steady_log_info steady_fetch steady_global : frame.

(** Walks a method body: a bind splits, a branch is taken both ways. *)
Ltac frame :=
  repeat first
    [ progress auto with frame
    | apply steady_bind; [|intros]
    | match goal with
      | |- steady _ (if ?b then _ else _) => destruct b
      | |- steady _ (match ?x with _ => _ end) => destruct x
      | |- steady _ (let (_, _) := ?x in _) => destruct x
      end ].

Lemma steady_parse_marker marker : steady R (parse_marker marker).
Proof.
  destruct marker as [[latitude longitude] location].
  unfold parse_marker, parse_marker_body. frame.
Qed.
#[local] Hint Resolve steady_parse_marker : frame.

Lemma steady_parse_js page exactly_one reverse :
  steady R (parse_js page exactly_one reverse).
Proof. unfold parse_js. frame. Qed.

Lemma steady_parse_json page exactly_one reverse :
  steady R (parse_json page exactly_one reverse).
Proof. unfold parse_json. frame. Qed.

Lemma steady_parse_csv page exactly_one reverse :
  steady R (parse_csv page exactly_one reverse).
Proof. unfold parse_csv. frame. Qed.

Section OverNested.

Variable nested : PyVal float -> M (GeoResult float).
Hypothesis steady_nested : forall q, steady R (nested q).

Lemma steady_xml_parse_place place : steady R (xml_parse_place nested place).
Proof. unfold xml_parse_place. frame. Qed.
#[local] Hint Resolve steady_xml_parse_place : frame.

Lemma steady_parse_xml page exactly_one reverse :
  steady R (parse_xml nested page exactly_one reverse).
Proof. unfold parse_xml. frame. Qed.

Lemma steady_dispatch name page exactly_one reverse :
  steady R (dispatch nested name page exactly_one reverse).
Proof.
  unfold dispatch, parse_kml.
  repeat match goal with
         | |- steady _ (if ?b then _ else _) => destruct b
         end;
    auto using steady_parse_xml, steady_parse_csv, steady_parse_json,
      steady_parse_js, steady_raise.
Qed.
#[local] Hint Resolve steady_dispatch : frame.

Lemma steady_geocode_url u exactly_one reverse :
  steady R (geocode_url nested u exactly_one reverse).
Proof. unfold geocode_url. frame. Qed.
#[local] Hint Resolve steady_geocode_url : frame.

Lemma steady_geocode_body query exactly_one language_code sensor vc vs :
  steady R (geocode_body nested query exactly_one language_code sensor vc vs).
Proof. unfold geocode_body. frame. Qed.

Lemma steady_reverse_body coord exactly_one :
  steady R (reverse_body nested coord exactly_one).
Proof. unfold reverse_body. frame. Qed.

Lemma steady_each {A} (f : A -> M (GeoResult float)) l :
  (forall x, steady R (f x)) -> steady R (each f l).
Proof. intros Hf. induction l as [|x l IH]; cbn [each]; frame. Qed.

Lemma steady_consume_body g : steady R (consume_body nested g).
Proof.
  destruct g; cbn [consume_body]; apply steady_each; intros x.
  - apply steady_xml_parse_place.
  - apply steady_lift.
  - apply steady_parse_marker.
Qed.

End OverNested.

Lemma steady_geocode_nested depth query : steady R (geocode_nested depth query).
Proof.
  revert query. induction depth as [|d IH]; intros query; cbn [geocode_nested].
  - apply steady_raise.
  - exact (steady_geocode_body (geocode_nested d) IH query true None false None None).
Qed.

Lemma steady_geocode depth query exactly_one language_code sensor vc vs :
  steady R (geocode depth query exactly_one language_code sensor vc vs).
Proof. apply steady_geocode_body. intros q. apply steady_geocode_nested. Qed.

Lemma steady_reverse depth coord exactly_one :
  steady R (reverse depth coord exactly_one).
Proof. apply steady_reverse_body. intros q. apply steady_geocode_nested. Qed.

Lemma steady_consume depth g : steady R (consume depth g).
Proof. apply steady_consume_body. intros q. apply steady_geocode_nested. Qed.

End Steady.

Section Frame.

Context {P : Platform}.

Lemma same_self_refl w : same_self w w.
Proof. reflexivity. Qed.

Lemma same_self_trans w1 w2 w3 : same_self w1 w2 -> same_self w2 w3 -> same_self w1 w3.
Proof. unfold same_self. congruence. Qed.

Lemma requests_grow_refl w : requests_grow w w.
Proof. exists []. reflexivity. Qed.

Lemma requests_grow_trans w1 w2 w3 :
  requests_grow w1 w2 -> requests_grow w2 w3 -> requests_grow w1 w3.
Proof.
  intros [m1 H1] [m2 H2]. exists (m2 ++ m1)%list. rewrite H2, H1. apply app_assoc.
Qed.

Lemma same_self_log w msg :
  same_self w {| self := self w; log := msg :: log w; requests := requests w |}.
Proof. reflexivity. Qed.

Lemma same_self_fetch w u :
  same_self w {| self := self w; log := log w; requests := u :: requests w |}.
Proof. reflexivity. Qed.

Lemma requests_grow_log w msg :
  requests_grow w {| self := self w; log := msg :: log w; requests := requests w |}.
Proof. exists []. reflexivity. Qed.

Lemma requests_grow_fetch w u :
  requests_grow w {| self := self w; log := log w; requests := u :: requests w |}.
Proof. exists [u]. reflexivity. Qed.

(** Consuming a generator that a call returned does not write to the
    receiver either. *)
Lemma consume_keeps_self depth g : steady same_self (consume depth g).
Proof.
  apply steady_consume;
    first [exact same_self_refl | exact same_self_trans
          | exact same_self_log | exact same_self_fetch].
Qed.

(** A parser sends no request of its own, and the fallback only adds to
    those sent. *)
Lemma dispatch_requests_grow depth name page exactly_one reverse :
  steady requests_grow (dispatch (geocode_nested depth) name page exactly_one reverse).
Proof.
  apply steady_dispatch;
    try first [exact requests_grow_refl | exact requests_grow_trans].
  intros q. apply steady_geocode_nested;
    first [exact requests_grow_refl | exact requests_grow_trans
          | exact requests_grow_log | exact requests_grow_fetch].
Qed.

(** The URL that [geocode_url] is given is the one it requests, before
    any request of the fallback. *)
Lemma geocode_url_requests depth u exactly_one reverse w :
  exists more,
    requests (snd (geocode_url (geocode_nested depth) u exactly_one reverse w)) =
    (more ++ u :: requests w)%list.
Proof.
  unfold geocode_url, bind, log_info, fetch, get_self. cbn [requests log self].
  destruct (urlopen (requests w) u) as [r|e]; [|exists []; reflexivity].
  cbn [self output_format].
  match goal with
  | |- context [dispatch ?n ?name ?page ?eo ?rev ?w0] =>
      destruct (dispatch_requests_grow depth name page eo rev w0) as [more H]
  end.
  exists more. exact H.
Qed.

(** The URL that [geocode] builds from its parameters is the first it
    requests. *)
Lemma geocode_requests_built_url depth query exactly_one language_code sensor
    viewport_center viewport_span params u w :
  geocode_params (self w) query language_code sensor viewport_center viewport_span
    = Ok params ->
  build_url (self w) params = Ok u ->
  exists more,
    requests (snd (geocode depth query exactly_one language_code sensor
                     viewport_center viewport_span w)) =
    (more ++ u :: requests w)%list.
Proof.
  intros Hp Hu.
  rewrite (geocode_opens_built_url _ _ _ _ _ _ _ _ _ _ _ eq_refl Hp Hu).
  apply geocode_url_requests.
Qed.

Lemma reverse_requests_built_url depth coord exactly_one params u w :
  reverse_params (self w) coord = Ok params ->
  build_url (self w) params = Ok u ->
  exists more,
    requests (snd (reverse depth coord exactly_one w)) = (more ++ u :: requests w)%list.
Proof.
  intros Hp Hu.
  rewrite (reverse_opens_built_url _ _ _ _ _ _ _ eq_refl Hp Hu).
  apply geocode_url_requests.
Qed.

(** C10: a call of [geocode] or of [reverse] leaves [self], hence each
    of [api_key], [domain], [resource], [format_string] and
    [output_format], as it was, whether the call returns or raises. *)
Theorem configuration_unchanged (depth : nat) (w : World) :
  (forall query exactly_one language_code sensor viewport_center viewport_span,
      self (snd (geocode depth query exactly_one language_code sensor
                   viewport_center viewport_span w)) = self w) /\
  (forall coord exactly_one,
      self (snd (reverse depth coord exactly_one w)) = self w).
Proof.
  split; intros.
  - apply (steady_geocode same_self);
      first [exact same_self_refl | exact same_self_trans
            | exact same_self_log | exact same_self_fetch].
  - apply (steady_reverse same_self);
      first [exact same_self_refl | exact same_self_trans
            | exact same_self_log | exact same_self_fetch].
Qed.

End Frame.

(* ===================================================================== *)
(** ** The XML parser *)
(* ===================================================================== *)

Section XmlProperties.

Context {P : Platform}.

Lemma get_first_text_is_first_non_empty node tags :
  Util.get_first_text (Some node) tags =
  first_non_empty (map (Util.field_text node) tags).
Proof.
  induction tags as [|tag tags IH]; [reflexivity|].
  cbn [Util.get_first_text map first_non_empty].
  destruct (Util.field_text node tag) as [[|a s]|]; auto.
Qed.

Lemma first_non_empty_or_none texts :
  or_none (first_non_empty texts) = first_non_empty texts.
Proof.
  induction texts as [|[[|a s]|] texts IH]; cbn; auto.
Qed.

(** The label is the first non-empty of the address field and the name
    field. *)
Lemma label_text_spec place :
  label_text place =
  first_non_empty [Util.field_text place "address"; Util.field_text place "name"].
Proof.
  unfold label_text.
  rewrite get_first_text_is_first_non_empty. apply first_non_empty_or_none.
Qed.

Variable nested : PyVal float -> M (GeoResult float).

Lemma xml_parse_place_with_coordinates place coords w :
  coordinate_text place = Some coords ->
  xml_parse_place nested place w =
  match floats (firstn 2 (PyStr.split "," coords)) with
  | Ok [longitude; latitude] =>
      (Ok {| location := val_of_opt (label_text place);
             latitude := VFloat latitude; longitude := VFloat longitude;
             extension := None |}, w)
  | Ok _ => (Raise (ValueError None), w)
  | Raise e => (Raise e, w)
  end.
Proof.
  intros H. unfold xml_parse_place. fold (coordinate_text place). rewrite H.
  fold (label_text place). unfold bind, lift.
  destruct (floats (firstn 2 (PyStr.split "," coords))) as [[|x [|y [|z fs]]]|e];
    reflexivity.
Qed.

Lemma xml_parse_place_without_coordinates place w :
  coordinate_text place = None ->
  xml_parse_place nested place w =
  match nested (val_of_opt (label_text place)) w with
  | (Ok r, w') =>
      (Ok {| location := val_of_opt (label_text place);
             latitude := latitude r; longitude := longitude r;
             extension := None |}, w')
  | (Raise e, w') => (Raise e, w')
  end.
Proof.
  intros H. unfold xml_parse_place. fold (coordinate_text place). rewrite H.
  fold (label_text place). unfold bind.
  destruct (nested (val_of_opt (label_text place)) w) as [[r|e] w']; reflexivity.
Qed.

Lemma parse_xml_places page places exactly_one reverse w :
  xml_places (page_text page) = Ok places ->
  parse_xml nested page exactly_one reverse w =
  (if (exactly_one && negb (List.length places =? 1)%nat) && negb reverse
   then raise (not_one_placemark (List.length places))
   else match exactly_one return M (Returned float exactly_one) with
        | true => match places with
                  | place :: _ => xml_parse_place nested place
                  | [] => raise IndexError
                  end
        | false => ret (GenXml places)
        end) w.
Proof.
  intros H. unfold parse_xml, bind, lift. rewrite H. reflexivity.
Qed.

(** C3: a page that is not well-formed XML has no placemarks; with
    [exactly_one] and not [reverse] that count of zero raises the
    cardinality [ValueError]; without [exactly_one] the result is the
    empty generator; under no flags does the parse failure reach the
    caller. *)
Theorem malformed_xml_is_zero_placemarks (page : Page) (w : World) :
  parseString (page_text page) = Raise ExpatError ->
  xml_places (page_text page) = Ok [] /\
  parse_xml nested page true false w =
    (Raise (ValueError (Some "Didn't find exactly one placemark! (Found 0.)")), w) /\
  (forall reverse, parse_xml nested page false reverse w = (Ok (GenXml []), w)) /\
  (forall exactly_one reverse,
      fst (parse_xml nested page exactly_one reverse w) <> Raise ExpatError).
Proof.
  intros H.
  assert (Hp : xml_places (page_text page) = Ok []).
  { unfold xml_places. rewrite H. reflexivity. }
  split; [exact Hp|].
  split; [rewrite (parse_xml_places _ _ _ _ _ Hp); reflexivity|].
  split.
  - intros reverse. rewrite (parse_xml_places _ _ _ _ _ Hp). reflexivity.
  - intros [] []; rewrite (parse_xml_places _ _ _ _ _ Hp); cbn; discriminate.
Qed.

(** C4: for a placemark whose coordinate text is [lon,lat] or
    [lon,lat,...] with both numbers readable, [parse_place] returns the
    label (the first non-empty of the address and the name field, else
    [None]) with the pair (lat, lon); whatever follows the second comma is
    not read.  [parse_xml] returns just that for a page with this one
    placemark. *)
Theorem coordinates_read_lon_lat_returned_lat_lon
    (place : Dom.Node) (coords lon_text lat_text : string) (rest : list string)
    (lon lat : float) (w : World) :
  coordinate_text place = Some coords ->
  PyStr.split "," coords = lon_text :: lat_text :: rest ->
  float_of_str lon_text = Some lon ->
  float_of_str lat_text = Some lat ->
  let result :=
    {| location :=
         val_of_opt (first_non_empty [Util.field_text place "address";
                                      Util.field_text place "name"]);
       latitude := VFloat lat; longitude := VFloat lon; extension := None |} in
  xml_parse_place nested place w = (Ok result, w) /\
  (forall page reverse,
      xml_places (page_text page) = Ok [place] ->
      parse_xml nested page true reverse w = (Ok result, w)).
Proof.
  intros Hc Hs Hlon Hlat result.
  assert (Hp : xml_parse_place nested place w = (Ok result, w)).
  { rewrite (xml_parse_place_with_coordinates _ _ _ Hc), Hs.
    cbn [firstn floats]. rewrite Hlon, Hlat. cbn [obind].
    unfold result. rewrite label_text_spec. reflexivity. }
  split; [exact Hp|].
  intros page reverse Hpl.
  rewrite (parse_xml_places _ _ _ _ _ Hpl). destruct reverse; exact Hp.
Qed.

End XmlProperties.

Section FallbackProperties.

Context {P : Platform}.

(** The nested call is [geocode] with the defaults, one step closer to
    the recursion limit. *)
Lemma geocode_nested_succ depth query :
  geocode_nested (S depth) query = geocode depth query true None false None None.
Proof. reflexivity. Qed.

(** C7: for a placemark with a label and no coordinate text,
    [parse_place] calls [self.geocode(label)] with every default; it
    returns the label with the coordinates of that call's result, and
    raises what that call raises.  [parse_xml] returns just that for a
    page with this one placemark. *)
Theorem uncoordinated_placemark_geocodes_its_label
    (depth : nat) (place : Dom.Node) (label : string) (w : World) :
  label_text place = Some label ->
  coordinate_text place = None ->
  let fallback :=
    match geocode depth (VStr label) true None false None None w with
    | (Ok r, w') =>
        (Ok {| location := VStr label;
               latitude := latitude r; longitude := longitude r;
               extension := None |}, w')
    | (Raise e, w') => (Raise e, w')
    end in
  xml_parse_place (geocode_nested (S depth)) place w = fallback /\
  (forall page reverse,
      xml_places (page_text page) = Ok [place] ->
      parse_xml (geocode_nested (S depth)) page true reverse w = fallback).
Proof.
  intros Hl Hc fallback.
  assert (Hp : xml_parse_place (geocode_nested (S depth)) place w = fallback).
  { rewrite (xml_parse_place_without_coordinates _ _ _ Hc), Hl.
    cbn [val_of_opt]. rewrite geocode_nested_succ. reflexivity. }
  split; [exact Hp|].
  intros page reverse Hpl.
  rewrite (parse_xml_places _ _ _ _ _ _ Hpl). destruct reverse; exact Hp.
Qed.

(** At the recursion limit the nested call, and with it the fallback,
    raises [RuntimeError]. *)
Lemma uncoordinated_placemark_at_limit (place : Dom.Node) (w : World) :
  coordinate_text place = None ->
  xml_parse_place (geocode_nested 0) place w = (Raise RuntimeError, w).
Proof.
  intros Hc. rewrite (xml_parse_place_without_coordinates _ _ _ Hc). reflexivity.
Qed.

End FallbackProperties.

(* ===================================================================== *)
(** ** The JSON parser *)
(* ===================================================================== *)

Section JsonProperties.

Context {P : Platform}.

Lemma parse_json_status page json status exactly_one reverse w :
  loads (page_text page) = Ok json ->
  json_status json = Ok status ->
  parse_json page exactly_one reverse w =
  (if negb (py_eq_int status 200) then raise (GeoStatusError status)
   else
     bind (lift (py_get json "Placemark" (VList []))) (fun places =>
     bind (if exactly_one
           then lift (obind (py_len places) (fun n => Ok (negb (n =? 1)%nat)))
           else ret false) (fun not_one =>
     if not_one && negb reverse
     then bind (lift (py_len places)) (fun n => raise (not_one_placemark n))
     else
       match exactly_one return M (Returned float exactly_one) with
       | true => bind (lift (py_first places))
                   (fun place => lift (json_parse_place place))
       | false => bind (lift (py_iter places)) (fun items => ret (GenJson items))
       end))) w.
Proof.
  intros Hl Hs. unfold parse_json.
  unfold bind at 1. unfold lift at 1. rewrite Hl.
  unfold bind at 1. unfold lift at 1. rewrite Hs. reflexivity.
Qed.

Lemma no_status_error_ok {A} (a : A) : no_status_error (Ok a).
Proof. intros s. discriminate. Qed.

Lemma no_status_error_raise {A B} e :
  no_status_error (@Raise float A e) -> no_status_error (@Raise float B e).
Proof. intros H s E. apply (H s). congruence. Qed.

Lemma no_status_error_obind {A B} (o : Outcome float A) (k : A -> Outcome float B) :
  no_status_error o -> (forall a, no_status_error (k a)) -> no_status_error (obind o k).
Proof.
  intros Ho Hk. destruct o as [a|e]; cbn [obind]; [apply Hk|].
  intros s E. apply (Ho s). congruence.
Qed.

Lemma no_status_error_py_get v k d : no_status_error (py_get v k d).
Proof. destruct v; intros st; cbn; discriminate. Qed.

Lemma no_status_error_py_getitem v k : no_status_error (py_getitem v k).
Proof.
  destruct v; intros st; cbn; try discriminate.
  destruct (lookup k members); discriminate.
Qed.

Lemma no_status_error_py_slice2 v : no_status_error (py_slice2 v).
Proof. destruct v; intros st; cbn; discriminate. Qed.

Lemma no_status_error_py_unpack2 l : no_status_error (py_unpack2 l).
Proof. destruct l as [|a [|b [|c l]]]; intros s; cbn; discriminate. Qed.

Lemma no_status_error_py_len v : no_status_error (py_len v).
Proof. destruct v; intros st; cbn; discriminate. Qed.

Lemma no_status_error_py_first v : no_status_error (py_first v).
Proof. destruct v as [| | | |[|a s']|[|x l]|]; intros st; cbn; discriminate. Qed.

Lemma no_status_error_py_iter v : no_status_error (py_iter v).
Proof. destruct v; intros st; cbn; discriminate. Qed.

Lemma no_status_error_json_parse_place place : no_status_error (json_parse_place place).
Proof.
  unfold json_parse_place.
  repeat first
    [ apply no_status_error_ok
    | apply no_status_error_obind; [|intros]
    | apply no_status_error_py_get
    | apply no_status_error_py_getitem
    | apply no_status_error_py_slice2
    | apply no_status_error_py_unpack2
    | match goal with |- no_status_error (let (_, _) := ?x in _) => destruct x end ].
Qed.

Lemma parse_json_never_status_error_after_200 page json status exactly_one reverse w :
  loads (page_text page) = Ok json ->
  json_status json = Ok status ->
  py_eq_int status 200 = true ->
  no_status_error (fst (parse_json page exactly_one reverse w)).
Proof.
  intros Hl Hs H200. rewrite (parse_json_status _ _ _ _ _ _ Hl Hs), H200.
  cbn [negb]. unfold bind, lift, ret, raise.
  pose proof (no_status_error_py_get json "Placemark" (VList [])) as Hg.
  destruct (py_get json "Placemark" (VList [])) as [places|e];
    [|exact (no_status_error_raise e Hg)].
  pose proof (no_status_error_py_len places) as Hn.
  pose proof (no_status_error_py_first places) as Hf.
  pose proof (no_status_error_py_iter places) as Hi.
  destruct exactly_one.
  - unfold obind. destruct (py_len places) as [n|e];
      [|exact (no_status_error_raise e Hn)].
    destruct (negb (n =? 1)%nat && negb reverse); [intros s; cbn; discriminate|].
    destruct (py_first places) as [place|e];
      [|exact (no_status_error_raise e Hf)].
    apply no_status_error_json_parse_place.
  - cbn [andb]. destruct (py_iter places) as [items|e];
      [|exact (no_status_error_raise e Hi)].
    intros s. cbn. discriminate.
Qed.

End JsonProperties.

Section StatusProperties.

Context {P : Platform}.

(** C2: when the decoded response has a [Status.code] other than 200,
    [parse_json] raises [GeoStatusError] with that very code, under every
    combination of flags and whatever else the response holds; when the
    code is 200, [parse_json] raises no [GeoStatusError]. *)
Theorem status_other_than_200_raises_its_code
    (page : Page) (json status : PyVal float) (w : World) :
  loads (page_text page) = Ok json ->
  json_status json = Ok status ->
  (py_eq_int status 200 = false ->
   forall exactly_one reverse,
     parse_json page exactly_one reverse w = (Raise (GeoStatusError status), w)) /\
  (py_eq_int status 200 = true ->
   forall exactly_one reverse s,
     fst (parse_json page exactly_one reverse w) <> Raise (GeoStatusError s)).
Proof.
  intros Hl Hs. split; intros H200 exactly_one reverse.
  - rewrite (parse_json_status _ _ _ _ _ _ Hl Hs), H200. reflexivity.
  - intros s.
    exact (parse_json_never_status_error_after_200 _ _ _ _ _ _ Hl Hs H200 s).
Qed.

End StatusProperties.

(* ===================================================================== *)
(** ** Exactly one result on a reverse lookup *)
(* ===================================================================== *)

Section ReverseProperties.

Context {P : Platform}.

Variable nested : PyVal float -> M (GeoResult float).

(** With [exactly_one] on a reverse lookup the XML, KML and JSON parsers
    make no cardinality check: a collection of any positive size gives the
    parse of its first element, and an empty one is indexed all the same,
    which gives the [IndexError] of [places[0]]. *)
Lemma reverse_exactly_one_takes_first_or_index_error (page : Page) (w : World) :
  (forall places,
      xml_places (page_text page) = Ok places ->
      parse_xml nested page true true w =
        match places with
        | place :: _ => xml_parse_place nested place w
        | [] => (Raise IndexError, w)
        end /\
      parse_kml nested page true true w = parse_xml nested page true true w) /\
  (forall json status places,
      loads (page_text page) = Ok json ->
      json_status json = Ok status ->
      py_eq_int status 200 = true ->
      py_get json "Placemark" (VList []) = Ok (VList places) ->
      parse_json page true true w =
        match places with
        | place :: _ => (json_parse_place place, w)
        | [] => (Raise IndexError, w)
        end).
Proof.
  split.
  - intros places Hp. split; [|reflexivity].
    rewrite (parse_xml_places _ _ _ _ _ _ Hp).
    rewrite andb_false_r. destruct places; reflexivity.
  - intros json status places Hl Hs H200 Hpl.
    rewrite (parse_json_status _ _ _ _ _ _ Hl Hs), H200. cbn [negb].
    unfold bind, lift. rewrite Hpl. cbn [py_len obind].
    rewrite andb_false_r. destruct places; reflexivity.
Qed.

End ReverseProperties.

(* ===================================================================== *)
(** ** The JavaScript parser *)
(* ===================================================================== *)

Section JsProperties.

Context {P : Platform}.

(** [re] is not among the names the module binds. *)
Lemma re_is_unbound : is_bound "re" = false.
Proof. reflexivity. Qed.

Lemma parse_js_unbound_re page exactly_one reverse w :
  parse_js page exactly_one reverse w = (Raise (NameError "re"), w).
Proof. reflexivity. Qed.

Lemma dispatch_js nested page exactly_one reverse w :
  dispatch nested "parse_js" page exactly_one reverse w = (Raise (NameError "re"), w).
Proof. reflexivity. Qed.

Lemma geocode_url_js nested u exactly_one reverse w :
  output_format (self w) = "js" ->
  exists e w', geocode_url nested u exactly_one reverse w = (Raise e, w').
Proof.
  intros H. unfold geocode_url, bind, log_info, fetch, get_self. cbn [self requests log].
  destruct (urlopen (requests w) u) as [r|e]; [|eauto].
  rewrite H. change ("parse_" ++ "js") with "parse_js".
  rewrite dispatch_js. eauto.
Qed.

(** C9: whatever the page, [parse_js] raises [NameError] for [re], which
    the module never imports, before it reads anything; hence a call of
    [geocode] or [reverse] on a receiver whose [output_format] is [js]
    always ends in an exception. *)
Theorem parse_js_raises_name_error :
  (forall page exactly_one reverse w,
      parse_js page exactly_one reverse w = (Raise (NameError "re"), w)) /\
  (forall depth w,
      output_format (self w) = "js" ->
      (forall query exactly_one language_code sensor viewport_center viewport_span,
          exists e, fst (geocode depth query exactly_one language_code sensor
                           viewport_center viewport_span w) = Raise e) /\
      (forall coord exactly_one,
          exists e, fst (reverse depth coord exactly_one w) = Raise e)).
Proof.
  split; [intros; apply parse_js_unbound_re|].
  intros depth w H. split; intros.
  - unfold geocode, geocode_body, bind, lift, get_self.
    destruct (geocode_params _ _ _ _ _ _) as [params|e]; [|cbn; eauto].
    destruct (build_url _ _) as [u|e]; [|cbn; eauto].
    destruct (geocode_url_js (geocode_nested depth) u exactly_one false w H)
      as (e & w' & E).
    rewrite E. cbn. eauto.
  - unfold reverse, reverse_body, bind, lift, get_self.
    destruct (reverse_params _ _) as [params|e]; [|cbn; eauto].
    destruct (build_url _ _) as [u|e]; [|cbn; eauto].
    destruct (geocode_url_js (geocode_nested depth) u exactly_one true w H)
      as (e & w' & E).
    rewrite E. cbn. eauto.
Qed.

(** Had [re] been bound, [parse_marker] would have returned the address
    that the pattern captures. *)
Lemma parse_marker_body_address latitude longitude location address lat lng w :
  re_match ADDRESS "address" location = Some address ->
  float_of_str latitude = Some lat ->
  float_of_str longitude = Some lng ->
  parse_marker_body (latitude, longitude, location) w =
  (Ok {| location := VStr address; latitude := VFloat lat; longitude := VFloat lng;
         extension := None |}, w).
Proof.
  intros Hm Hlat Hlng. unfold parse_marker_body. rewrite Hm, Hlat, Hlng. reflexivity.
Qed.

(** As it is, [parse_marker] stops at the lookup of [re]. *)
Lemma parse_marker_unbound_re marker w :
  parse_marker marker w = (Raise (NameError "re"), w).
Proof. reflexivity. Qed.

End JsProperties.

(* ===================================================================== *)
(** ** What the [ADDRESS] pattern captures *)
(* ===================================================================== *)

Example address_of_example :
  Re.address "123 Main St (via Acme@example)" = Some "123 Main St".
Proof. reflexivity. Qed.

Example address_without_suffix :
  Re.address "123 Main St (rear)" = Some "123 Main St (rear)".
Proof. reflexivity. Qed.

Example address_first_marker :
  Re.address "A (x) B (y@z)" = Some "A".
Proof. reflexivity. Qed.

Module ReFacts.
Import Re.

Lemma lazy_dots_here {A} s (k : string -> option A) x :
  k s = Some x -> lazy_dots s k = Some x.
Proof. intros H. destruct s; cbn [lazy_dots]; rewrite H; reflexivity. Qed.

(** The repetition passes over a prefix none of whose positions the
    continuation accepts. *)
Lemma lazy_dots_skip {A} pre rest (k : string -> option A) :
  PyStr.contains newline pre = false ->
  (forall p1 p2, pre = p1 ++ p2 -> p2 <> EmptyString -> k (p2 ++ rest) = None) ->
  lazy_dots (pre ++ rest) k = lazy_dots rest k.
Proof.
  induction pre as [|a pre IH]; intros Hn Hk; [reflexivity|].
  cbn [PyStr.contains] in Hn. apply orb_false_iff in Hn as [Ha Hn].
  assert (H0 : k (String a pre ++ rest) = None).
  { apply (Hk EmptyString (String a pre)); [reflexivity | discriminate]. }
  cbn [append] in H0. cbn [append lazy_dots].
  rewrite H0, Ha. apply IH; [exact Hn|].
  intros p1 p2 -> Hp2. apply (Hk (String a p1) p2); [reflexivity | exact Hp2].
Qed.

Lemma length_append s t : String.length (s ++ t) = String.length s + String.length t.
Proof. induction s as [|a s IH]; cbn; [reflexivity | now rewrite IH]. Qed.

Lemma substring_prefix s t : substring 0 (String.length s) (s ++ t) = s.
Proof.
  induction s as [|a s IH]; cbn.
  - destruct t; reflexivity.
  - now rewrite IH.
Qed.

Lemma consumed_prefix pre rest : consumed (pre ++ rest) rest = pre.
Proof.
  unfold consumed. rewrite length_append, Nat.add_sub. apply substring_prefix.
Qed.

Lemma lazy_dots_finds {A} mid rest (k : string -> option A) c :
  PyStr.contains newline mid = false ->
  (forall s x, k s = Some x -> x = c) ->
  k rest = Some c ->
  lazy_dots (mid ++ rest) k = Some c.
Proof.
  intros Hn Hv Hk. induction mid as [|a mid IH]; [now apply lazy_dots_here|].
  cbn [PyStr.contains] in Hn. apply orb_false_iff in Hn as [Ha Hn].
  cbn [append lazy_dots].
  destruct (k (String a (mid ++ rest))) as [x|] eqn:E.
  - now rewrite (Hv _ _ E).
  - rewrite Ha. apply IH. exact Hn.
Qed.

Lemma lazy_dots_none {A} (p : string -> bool) s (k : string -> option A) :
  (forall a t, p (String a t) = true -> p t = true) ->
  (forall t, p t = true -> k t = None) ->
  p s = true ->
  lazy_dots s k = None.
Proof.
  intros Hp Hk. induction s as [|a s IH]; intros Hs; cbn [lazy_dots]; rewrite (Hk _ Hs).
  - reflexivity.
  - destruct (Ascii.eqb a newline); [reflexivity|]. apply IH. exact (Hp _ _ Hs).
Qed.

Lemma dots_then_at_unfold s caps k :
  run (Seq LazyDots (Chr "@")) s caps k = lazy_dots s (then_at caps k).
Proof. reflexivity. Qed.

(** [.*?@] finds an [@] that no newline comes before. *)
Lemma dots_then_at mid post caps (k : string -> captures -> option captures) c :
  PyStr.contains newline mid = false ->
  (forall s, k s caps = Some c) ->
  run (Seq LazyDots (Chr "@")) (mid ++ String "@" post) caps k = Some c.
Proof.
  intros Hn Hk. rewrite dots_then_at_unfold.
  apply lazy_dots_finds; [exact Hn| |].
  - intros s x. unfold then_at. cbn [run].
    destruct s as [|b s]; [discriminate|].
    destruct (Ascii.eqb "@" b); [|discriminate].
    rewrite Hk. congruence.
  - unfold then_at. cbn [run]. rewrite Ascii.eqb_refl. apply Hk.
Qed.

(** [.*?@] fails where there is no [@]. *)
Lemma dots_then_at_none s caps (k : string -> captures -> option captures) :
  PyStr.contains "@" s = false ->
  run (Seq LazyDots (Chr "@")) s caps k = None.
Proof.
  intros Hn. rewrite dots_then_at_unfold.
  apply (lazy_dots_none (fun t => negb (PyStr.contains "@" t))).
  - intros a t H. cbn [PyStr.contains] in H.
    apply negb_true_iff in H. apply orb_false_iff in H as [_ H]. now rewrite H.
  - intros t H. apply negb_true_iff in H. unfold then_at. cbn [run].
    destruct t as [|b t]; [reflexivity|].
    cbn [PyStr.contains] in H. apply orb_false_iff in H as [Hb _].
    now rewrite Ascii.eqb_sym, Hb.
  - now rewrite Hn.
Qed.

Lemma address_unfold s :
  address s =
  match lazy_dots s (fun s' =>
          run suffix_pattern s' [("address", consumed s s')] (fun _ caps => Some caps))
  with
  | Some caps => group "address" caps
  | None => None
  end.
Proof. reflexivity. Qed.

Lemma suffix_unfold s caps k :
  run suffix_pattern s caps k =
  match marker_then_at s caps k with
  | Some c => Some c
  | None => if at_end s then k s caps else None
  end.
Proof.
  destruct s as [|a [|b r]]; unfold suffix_pattern, marker_then_at; cbn [run].
  - reflexivity.
  - destruct (Ascii.eqb " " a); reflexivity.
  - destruct (Ascii.eqb " " a), (Ascii.eqb "(" b); reflexivity.
Qed.

Lemma suffix_at_marker mid post caps :
  PyStr.contains newline mid = false ->
  run suffix_pattern (" (" ++ mid ++ String "@" post) caps (fun _ c => Some c) = Some caps.
Proof.
  intros Hn. rewrite suffix_unfold. cbn [append marker_then_at].
  rewrite !Ascii.eqb_refl. cbn [andb].
  rewrite (dots_then_at mid post caps _ caps Hn); reflexivity.
Qed.

(** Inside a text without [(], in front of a marker, the suffix pattern
    does not match. *)
Lemma suffix_not_before_marker p2 rest caps k :
  p2 <> EmptyString ->
  PyStr.contains "(" p2 = false ->
  run suffix_pattern (p2 ++ " (" ++ rest) caps k = None.
Proof.
  intros Hne Hp. destruct p2 as [|a p2]; [congruence|].
  cbn [PyStr.contains] in Hp. apply orb_false_iff in Hp as [Ha Hp].
  rewrite suffix_unfold.
  assert (Hend : at_end (String a p2 ++ " (" ++ rest) = false).
  { destruct p2; reflexivity. }
  rewrite Hend.
  destruct p2 as [|b p2]; cbn [append marker_then_at].
  - rewrite andb_false_r. reflexivity.
  - cbn [PyStr.contains] in Hp. apply orb_false_iff in Hp as [Hb _].
    rewrite (Ascii.eqb_sym "(" b), Hb, andb_false_r. reflexivity.
Qed.

(** A label [pre (mid@post], with no [(] in [pre] and all of [pre (mid] on
    one line, is cut down to [pre]. *)
Lemma address_truncates pre mid post :
  PyStr.contains "(" pre = false ->
  PyStr.contains newline pre = false ->
  PyStr.contains newline mid = false ->
  address (pre ++ " (" ++ mid ++ String "@" post) = Some pre.
Proof.
  intros Hp Hn Hm. rewrite address_unfold.
  rewrite lazy_dots_skip; [|exact Hn|].
  - erewrite lazy_dots_here; [|apply suffix_at_marker; exact Hm].
    cbn [group Fixture.canned]. rewrite String.eqb_refl, consumed_prefix. reflexivity.
  - intros p1 p2 -> Hne.
    apply suffix_not_before_marker; [exact Hne|].
    rewrite StrFacts.contains_app in Hp. apply orb_false_iff in Hp as [_ Hp]. exact Hp.
Qed.

Lemma append_empty s : s ++ "" = s.
Proof. induction s as [|c s IH]; cbn; [reflexivity | now rewrite IH]. Qed.

(** A one-line label without [@] is kept whole. *)
Lemma address_kept_whole s :
  PyStr.contains "@" s = false ->
  PyStr.contains newline s = false ->
  address s = Some s.
Proof.
  intros Ha Hn. rewrite address_unfold.
  assert (E : lazy_dots s (fun s' =>
                run suffix_pattern s' [("address", consumed s s')] (fun _ caps => Some caps))
              = Some [("address", s)]).
  { rewrite <- (append_empty s) at 1.
    rewrite lazy_dots_skip; [|exact Hn|].
    - cbn. unfold consumed. cbn [String.length]. rewrite Nat.sub_0_r.
      rewrite <- (append_empty s) at 2. rewrite substring_prefix. reflexivity.
    - intros p1 p2 -> Hne. rewrite append_empty.
      rewrite StrFacts.contains_app in Ha, Hn.
      apply orb_false_iff in Ha as [_ Ha]. apply orb_false_iff in Hn as [_ Hn].
      rewrite suffix_unfold.
      destruct p2 as [|a p2]; [congruence|].
      assert (Hend : at_end (String a p2) = false).
      { cbn [PyStr.contains] in Hn. apply orb_false_iff in Hn as [Hn _].
        destruct p2; cbn; [exact Hn | reflexivity]. }
      rewrite Hend.
      destruct p2 as [|b p2]; cbn [marker_then_at]; [reflexivity|].
      destruct (Ascii.eqb " " a && Ascii.eqb "(" b); [|reflexivity].
      rewrite dots_then_at_none; [reflexivity|].
      cbn [PyStr.contains] in Ha.
      apply orb_false_iff in Ha as [_ Ha]. apply orb_false_iff in Ha as [_ Ha]. exact Ha. }
  rewrite E. reflexivity.
Qed.

End ReFacts.

(* ===================================================================== *)
(** ** Runs on the concrete platform *)
(* ===================================================================== *)

(** The spec's end-to-end scenario. *)
Example amphitheatre_run :
  fst (@geocode Demo.platform 0 (VStr "1600 Amphitheatre Parkway") true None false
         None None Demo.world)
  = Ok (Demo.result "1600 Amphitheatre Pkwy, Mountain View, CA"
          (37422%Z, 3) ((-122084)%Z, 3)).
Proof. vm_compute. reflexivity. Qed.

(** A named placemark without coordinates is resolved by a second
    request. *)
Example fallback_run :
  @geocode Demo.platform 1 (VStr "nowhere") true None false None None Demo.world
  = (Ok (Demo.result "Somewhere" (25%Z, 1) (15%Z, 1)),
     {| self := default_google;
        log := ["Fetching http://maps.google.com/maps/geo?q=Somewhere&output=kml&sensor=false&key=None...";
                "Fetching http://maps.google.com/maps/geo?q=nowhere&output=kml&sensor=false&key=None..."];
        requests := ["http://maps.google.com/maps/geo?q=Somewhere&output=kml&sensor=false&key=None";
                     "http://maps.google.com/maps/geo?q=nowhere&output=kml&sensor=false&key=None"] |}).
Proof. vm_compute. reflexivity. Qed.

(** At the recursion limit the nested call raises. *)
Example fallback_at_limit :
  fst (@geocode Demo.platform 0 (VStr "nowhere") true None false None None Demo.world)
  = Raise RuntimeError.
Proof. vm_compute. reflexivity. Qed.

(** A resource other than the geocoder's gets no key. *)
Example no_key_for_maps_resource :
  @url_param_names Demo.platform
    match @geocode_params Demo.platform (self Demo.js_world) (VStr "x") None false None None with
    | Ok params => params
    | Raise _ => []
    end = ["q"; "output"; "sensor"].
Proof. vm_compute. reflexivity. Qed.

(** With both viewport arguments, [ll] and [spn] are in the URL. *)
Example viewport_run :
  @url_param_names Demo.platform
    match @geocode_params Demo.platform default_google (VStr "Main St") None false
            (Some "37.4,-122.0") (Some "0.1,0.1") with
    | Ok params => params
    | Raise _ => []
    end = ["q"; "output"; "sensor"; "ll"; "spn"; "key"].
Proof. vm_compute. reflexivity. Qed.

(** What [parse_marker] would return for the marker of the label example
    if [re] were bound: the label up to the marker of the suffix. *)
Example labelled_marker_body_run :
  fst (@parse_marker_body Demo.platform Demo.labelled_marker Demo.world)
  = Ok (Demo.result "123 Main St" (37422%Z, 3) ((-122084)%Z, 3)).
Proof. vm_compute. reflexivity. Qed.

(** What it does return. *)
Example labelled_marker_run :
  fst (@parse_marker Demo.platform Demo.labelled_marker Demo.world)
  = Raise (NameError "re").
Proof. reflexivity. Qed.

(** C8: on a page whose one marker carries the label
    [123 Main St (via Acme@example)], [parse_js] raises [NameError] for
    [re]; no label is returned, truncated or whole. *)
Theorem parse_js_on_labelled_marker_raises {P : Platform} (reverse : bool) (w : World) :
  parse_js (PageStr Demo.marker_page) true reverse w = (Raise (NameError "re"), w).
Proof. apply parse_js_unbound_re. Qed.

(** C1: with [exactly_one] on a reverse lookup, a response without
    placemarks is indexed at 0 and the call ends in that [IndexError], for
    the XML parser, for the JSON parser and for [reverse] as a whole; the
    same pages on a forward lookup are reported by the parsers themselves,
    with the [ValueError] that counts the placemarks. *)
Theorem reverse_without_placemarks_is_index_error :
  fst (@parse_xml Demo.platform (geocode_nested 0)
         (PageStr Demo.no_placemark_page) true true Demo.world) = Raise IndexError /\
  fst (@parse_json Demo.platform (PageStr Demo.empty_page) true true Demo.world)
    = Raise IndexError /\
  fst (@reverse Demo.platform 0 (VStr "0.0", VStr "0.0") true Demo.world)
    = Raise IndexError /\
  fst (@parse_xml Demo.platform (geocode_nested 0)
         (PageStr Demo.no_placemark_page) true false Demo.world)
    = Raise (ValueError (Some "Didn't find exactly one placemark! (Found 0.)")) /\
  fst (@parse_json Demo.platform (PageStr Demo.empty_page) true false Demo.world)
    = Raise (ValueError (Some "Didn't find exactly one placemark! (Found 0.)")).
Proof. repeat split; vm_compute; reflexivity. Qed.

(** The reverse lookup on a page without placemarks, and on a JSON
    response with two. *)
Lemma reverse_exactly_one_takes_first_or_index_error_witness :
  @xml_places Demo.platform (page_text (PageStr Demo.no_placemark_page)) = Ok [] /\
  @parse_xml Demo.platform (geocode_nested 0) (PageStr Demo.no_placemark_page)
    true true Demo.world = (Raise IndexError, Demo.world) /\
  @loads Demo.platform (page_text (PageStr Demo.two_places_page)) = Ok Demo.two_places_json /\
  @parse_json Demo.platform (PageStr Demo.two_places_page) true true Demo.world
    = (@json_parse_place Demo.platform Demo.place_a, Demo.world).
Proof.
  split; [reflexivity|]. split.
  - exact (proj1 (proj1 (@reverse_exactly_one_takes_first_or_index_error
                           Demo.platform (geocode_nested 0)
                           (PageStr Demo.no_placemark_page) Demo.world)
                    [] eq_refl)).
  - split; [reflexivity|].
    exact (proj2 (@reverse_exactly_one_takes_first_or_index_error
                    Demo.platform (geocode_nested 0)
                    (PageStr Demo.two_places_page) Demo.world)
             Demo.two_places_json (VInt 200) [Demo.place_a; Demo.place_b]
             eq_refl eq_refl eq_refl eq_refl).
Defined.

(** A response with status 602 and a placemark. *)
Lemma status_other_than_200_raises_its_code_witness :
  @loads Demo.platform (page_text (PageStr Demo.unknown_address_page))
    = Ok Demo.unknown_address_json /\
  @json_status Demo.platform Demo.unknown_address_json = Ok (VInt 602) /\
  @py_eq_int Demo.platform (VInt 602) 200 = false /\
  @parse_json Demo.platform (PageStr Demo.unknown_address_page) true false Demo.world
    = (Raise (GeoStatusError (VInt 602)), Demo.world).
Proof.
  repeat (split; [reflexivity|]).
  exact (proj1 (@status_other_than_200_raises_its_code Demo.platform
                  (PageStr Demo.unknown_address_page) Demo.unknown_address_json
                  (VInt 602) Demo.world eq_refl eq_refl)
           eq_refl true false).
Defined.

(** A page whose [Placemark] element is never closed. *)
Lemma malformed_xml_is_zero_placemarks_witness :
  @parseString Demo.platform (page_text (PageStr Demo.malformed_page)) = Raise ExpatError /\
  @parse_xml Demo.platform (geocode_nested 0) (PageStr Demo.malformed_page) true false
    Demo.world
  = (Raise (ValueError (Some "Didn't find exactly one placemark! (Found 0.)")), Demo.world).
Proof.
  split; [reflexivity|].
  exact (proj1 (proj2 (@malformed_xml_is_zero_placemarks Demo.platform (geocode_nested 0)
                         (PageStr Demo.malformed_page) Demo.world eq_refl))).
Defined.

(** The placemark of the end-to-end scenario, with an altitude. *)
Lemma coordinates_read_lon_lat_returned_lat_lon_witness :
  @coordinate_text Demo.amphitheatre_place = Some "-122.084,37.422,0" /\
  PyStr.split "," "-122.084,37.422,0" = ["-122.084"; "37.422"; "0"] /\
  @float_of_str Demo.platform "-122.084" = Some ((-122084)%Z, 3) /\
  @float_of_str Demo.platform "37.422" = Some (37422%Z, 3) /\
  @xml_parse_place Demo.platform (geocode_nested 0) Demo.amphitheatre_place Demo.world
  = (Ok (Demo.result "1600 Amphitheatre Pkwy, Mountain View, CA"
           (37422%Z, 3) ((-122084)%Z, 3)), Demo.world).
Proof.
  repeat (split; [reflexivity|]).
  exact (proj1 (@coordinates_read_lon_lat_returned_lat_lon Demo.platform
                  (geocode_nested 0) Demo.amphitheatre_place
                  "-122.084,37.422,0" "-122.084" "37.422" ["0"]
                  ((-122084)%Z, 3) (37422%Z, 3) Demo.world
                  eq_refl eq_refl eq_refl eq_refl)).
Defined.

(** A placemark named [Somewhere] without a point; the server knows the
    name. *)
Lemma uncoordinated_placemark_geocodes_its_label_witness :
  @label_text Demo.somewhere_place = Some "Somewhere" /\
  @coordinate_text Demo.somewhere_place = None /\
  fst (@xml_parse_place Demo.platform (geocode_nested 1) Demo.somewhere_place Demo.world)
  = Ok (Demo.result "Somewhere" (25%Z, 1) (15%Z, 1)).
Proof.
  repeat (split; [reflexivity|]).
  refine (eq_trans
            (f_equal fst
               (proj1 (@uncoordinated_placemark_geocodes_its_label Demo.platform 0
                         Demo.somewhere_place "Somewhere" Demo.world eq_refl eq_refl)))
            _).
  vm_compute. reflexivity.
Defined.

(** A receiver configured for the JavaScript format. *)
Lemma parse_js_raises_name_error_witness :
  output_format (self Demo.js_world) = "js" /\
  exists e,
    fst (@geocode Demo.platform 0 (VStr "123 Main St") true None false None None
           Demo.js_world) = Raise e.
Proof.
  split; [reflexivity|].
  exact (proj1 (proj2 (@parse_js_raises_name_error Demo.platform) 0 Demo.js_world eq_refl)
           (VStr "123 Main St") true None false None None).
Defined.

(** The default resource, [maps/geo]. *)
Lemma api_key_param_iff_geo_resource_witness :
  @call_params Demo.platform default_google
    (Geocode (VStr "1600 Amphitheatre Parkway") None false None None)
  = Ok [("q", Some "1600 Amphitheatre Parkway"); ("output", Some "kml");
        ("sensor", Some "false"); ("key", None)] /\
  (In "key" (@url_param_names Demo.platform
               [("q", Some "1600 Amphitheatre Parkway"); ("output", Some "kml");
                ("sensor", Some "false"); ("key", None)]) <->
   PyStr.endswith (PyStr.rstrip "/" "maps/geo") "geo" = true).
Proof.
  split; [reflexivity|].
  exact (@api_key_param_iff_geo_resource Demo.platform default_google
           (Geocode (VStr "1600 Amphitheatre Parkway") None false None None)
           _ eq_refl).
Defined.

(** A viewport centre without a span. *)
Lemma viewport_params_together_witness :
  @geocode_params Demo.platform default_google (VStr "Main St") None false
    (Some "37.4,-122.0") None
  = Ok [("q", Some "Main St"); ("output", Some "kml"); ("sensor", Some "false");
        ("key", None)] /\
  (In "ll" (@url_param_names Demo.platform
              [("q", Some "Main St"); ("output", Some "kml"); ("sensor", Some "false");
               ("key", None)]) <->
   opt_truthy (Some "37.4,-122.0") && opt_truthy None = true).
Proof.
  split; [reflexivity|].
  exact (proj1 (@viewport_params_together Demo.platform default_google (VStr "Main St")
                  None false (Some "37.4,-122.0") None _ eq_refl)).
Defined.

(* ===================================================================== *)
(** ** Before and at the dispatch *)
(* ===================================================================== *)

Section DispatchProperties.

Context {P : Platform}.

Lemma geocode_url_unfold nested u exactly_one reverse w :
  geocode_url nested u exactly_one reverse w =
  match urlopen (requests w) u with
  | Ok r => dispatch nested ("parse_" ++ output_format (self w)) (PageObj r)
              exactly_one reverse (requested u w)
  | Raise e => (Raise e, requested u w)
  end.
Proof.
  unfold geocode_url, bind, log_info, fetch, get_self, requested, fetch_record.
  cbn [self log requests]. destruct (urlopen (requests w) u); reflexivity.
Qed.

Lemma perform_opens_built_url depth c exactly_one params u w :
  call_params (self w) c = Ok params ->
  build_url (self w) params = Ok u ->
  perform depth c exactly_one w =
  geocode_url (geocode_nested depth) u exactly_one (is_reverse c) w.
Proof.
  intros Hp Hu. destruct c as [query lang sensor vc vs | coord]; cbn [perform is_reverse].
  - exact (geocode_opens_built_url _ _ _ _ _ _ _ _ _ _ _ eq_refl Hp Hu).
  - exact (reverse_opens_built_url _ _ _ _ _ _ _ eq_refl Hp Hu).
Qed.

(** X1: when the format string cannot take the query, or the URL template
    cannot take the query string, [geocode] and [reverse] raise that error
    and have logged and requested nothing. *)
Theorem formatting_error_before_any_request
    (depth : nat) (c : Call) (exactly_one : bool) (e : Exception float) (w : World) :
  call_params (self w) c = Raise e \/
  (exists params, call_params (self w) c = Ok params /\
                  build_url (self w) params = Raise e) ->
  perform depth c exactly_one w = (Raise e, w).
Proof.
  intros [H | (params & Hp & Hu)];
    destruct c as [query lang sensor vc vs | coord]; cbn [perform call_params] in *;
    unfold geocode, reverse, geocode_body, reverse_body, bind, lift, get_self.
  - rewrite H. reflexivity.
  - rewrite H. reflexivity.
  - rewrite Hp, Hu. reflexivity.
  - rewrite Hp, Hu. reflexivity.
Qed.

(** X2: an error of the transport is raised unchanged by [geocode] and
    [reverse]; the URL has been logged and requested once, and no parser
    has run. *)
Theorem transport_error_is_raised_as_is
    (depth : nat) (c : Call) (exactly_one : bool) (params : dict) (u : string)
    (e : Exception float) (w : World) :
  call_params (self w) c = Ok params ->
  build_url (self w) params = Ok u ->
  urlopen (requests w) u = Raise e ->
  perform depth c exactly_one w = (Raise e, requested u w).
Proof.
  intros Hp Hu He.
  rewrite (perform_opens_built_url _ _ _ _ _ _ Hp Hu), geocode_url_unfold, He.
  reflexivity.
Qed.

Lemma dispatch_name_unknown nested fmt page exactly_one reverse w :
  existsb (String.eqb fmt) known_formats = false ->
  dispatch nested ("parse_" ++ fmt) page exactly_one reverse w = (Raise AttributeError, w).
Proof.
  intros H. cbn [existsb known_formats] in H.
  repeat (apply orb_false_iff in H; destruct H as [? H]).
  unfold dispatch. cbn [append String.eqb Ascii.eqb Bool.eqb].
  repeat match goal with
         | E : (fmt =? _) = false |- _ => rewrite E; clear E
         end.
  reflexivity.
Qed.

(** X3: with an [output_format] that is not exactly [xml], [csv], [kml],
    [json] or [js] (an upper-case [KML], say, which the request carries
    lower-cased), the call requests the URL and then raises
    [AttributeError]; with [csv] it requests the URL and then raises
    [NotImplementedError].  The five [parse_] methods are those of the
    class; its base class [Geocoder] is taken to bring no further one. *)
Theorem format_without_parser_fails_after_the_request
    (depth : nat) (c : Call) (exactly_one : bool) (params : dict) (u : string)
    (r : Util.Response) (w : World) :
  call_params (self w) c = Ok params ->
  build_url (self w) params = Ok u ->
  urlopen (requests w) u = Ok r ->
  (existsb (String.eqb (output_format (self w))) known_formats = false ->
   perform depth c exactly_one w = (Raise AttributeError, requested u w)) /\
  (output_format (self w) = "csv" ->
   perform depth c exactly_one w = (Raise NotImplementedError, requested u w)).
Proof.
  intros Hp Hu Hr.
  rewrite (perform_opens_built_url _ _ _ _ _ _ Hp Hu), geocode_url_unfold, Hr.
  split; intros H.
  - apply dispatch_name_unknown. exact H.
  - rewrite H. reflexivity.
Qed.

End DispatchProperties.

(* ===================================================================== *)
(** ** How many placemarks *)
(* ===================================================================== *)

Section CardinalityProperties.

Context {P : Platform}.

Variable nested : PyVal float -> M (GeoResult float).

Lemma parse_json_places page json status places exactly_one reverse w :
  loads (page_text page) = Ok json ->
  json_status json = Ok status ->
  py_eq_int status 200 = true ->
  py_get json "Placemark" (VList []) = Ok (VList places) ->
  parse_json page exactly_one reverse w =
  (if (exactly_one && negb (List.length places =? 1)%nat) && negb reverse
   then raise (not_one_placemark (List.length places))
   else match exactly_one return M (Returned float exactly_one) with
        | true => match places with
                  | place :: _ => lift (json_parse_place place)
                  | [] => raise IndexError
                  end
        | false => ret (GenJson places)
        end) w.
Proof.
  intros Hl Hs H200 Hp.
  rewrite (parse_json_status _ _ _ _ _ _ Hl Hs), H200. cbn [negb].
  unfold bind, lift. rewrite Hp. cbn [py_len py_first py_iter obind].
  destruct exactly_one; cbn [andb].
  - destruct (negb (List.length places =? 1)%nat && negb reverse); [reflexivity|].
    destruct places; reflexivity.
  - reflexivity.
Qed.

(** X4: on a forward lookup with [exactly_one], [parse_xml] raises the
    [ValueError] that names the count whenever the page has no placemark
    or more than one, without parsing any of them; with exactly one it
    returns the parse of that one. *)
Theorem forward_xml_needs_exactly_one
    (page : Page) (places : list Dom.Node) (w : World) :
  xml_places (page_text page) = Ok places ->
  (List.length places <> 1 ->
   parse_xml nested page true false w =
   (Raise (ValueError (Some ("Didn't find exactly one placemark! (Found "
                             ++ PyStr.of_nat (List.length places) ++ ".)"))), w)) /\
  (forall place, places = [place] ->
   parse_xml nested page true false w = xml_parse_place nested place w).
Proof.
  intros Hp. rewrite (parse_xml_places _ _ _ _ _ _ Hp). split.
  - intros Hn. apply Nat.eqb_neq in Hn. rewrite Hn. reflexivity.
  - intros place ->. reflexivity.
Qed.

(** X5: on a forward lookup with [exactly_one], [parse_json] on a
    response with status 200 raises the [ValueError] that names the count
    whenever the [Placemark] list has no entry or more than one (a
    response without the key counts as none); with exactly one entry it
    returns the parse of that one. *)
Theorem forward_json_needs_exactly_one
    (page : Page) (json status : PyVal float) (places : list (PyVal float)) (w : World) :
  loads (page_text page) = Ok json ->
  json_status json = Ok status ->
  py_eq_int status 200 = true ->
  py_get json "Placemark" (VList []) = Ok (VList places) ->
  (List.length places <> 1 ->
   parse_json page true false w =
   (Raise (ValueError (Some ("Didn't find exactly one placemark! (Found "
                             ++ PyStr.of_nat (List.length places) ++ ".)"))), w)) /\
  (forall place, places = [place] ->
   parse_json page true false w = (json_parse_place place, w)).
Proof.
  intros Hl Hs H200 Hp. rewrite (parse_json_places _ _ _ _ _ _ _ Hl Hs H200 Hp). split.
  - intros Hn. apply Nat.eqb_neq in Hn. rewrite Hn. reflexivity.
  - intros place ->. reflexivity.
Qed.

(** X6: on a reverse lookup with [exactly_one], a page with several
    placemarks is no error: [parse_xml] and [parse_json] return the parse
    of the first and do not look at the others. *)
Theorem reverse_returns_first_of_many (page : Page) (w : World) :
  (forall place others,
      xml_places (page_text page) = Ok (place :: others) ->
      parse_xml nested page true true w = xml_parse_place nested place w) /\
  (forall json status place others,
      loads (page_text page) = Ok json ->
      json_status json = Ok status ->
      py_eq_int status 200 = true ->
      py_get json "Placemark" (VList []) = Ok (VList (place :: others)) ->
      parse_json page true true w = (json_parse_place place, w)).
Proof.
  split.
  - intros place others Hp. rewrite (parse_xml_places _ _ _ _ _ _ Hp).
    rewrite andb_false_r. reflexivity.
  - intros json status place others Hl Hs H200 Hp.
    rewrite (parse_json_places _ _ _ _ _ _ _ Hl Hs H200 Hp).
    rewrite andb_false_r. reflexivity.
Qed.

End CardinalityProperties.

Section LazyProperties.

Context {P : Platform}.

(** X7: asked for all results, [geocode] and [reverse] return a generator
    over every placemark of the answer, in document order, whatever their
    number; they have made the one request and parsed nothing, so a
    placemark without coordinates has caused no second lookup. *)
Theorem all_results_are_returned_unparsed
    (depth : nat) (c : Call) (params : dict) (u : string) (r : Util.Response) (w : World) :
  call_params (self w) c = Ok params ->
  build_url (self w) params = Ok u ->
  urlopen (requests w) u = Ok r ->
  (forall places,
      output_format (self w) = "xml" \/ output_format (self w) = "kml" ->
      xml_places (Util.body r) = Ok places ->
      perform depth c false w = (Ok (GenXml places), requested u w)) /\
  (forall json status places,
      output_format (self w) = "json" ->
      loads (Util.body r) = Ok json ->
      json_status json = Ok status ->
      py_eq_int status 200 = true ->
      py_get json "Placemark" (VList []) = Ok (VList places) ->
      perform depth c false w = (Ok (GenJson places), requested u w)).
Proof.
  intros Hp Hu Hr.
  rewrite (perform_opens_built_url _ _ _ _ _ _ Hp Hu), geocode_url_unfold, Hr.
  split.
  - intros places [H | H] Hx; rewrite H;
      change (dispatch (geocode_nested depth) ("parse_" ++ _) ?pg false ?rv ?w0)
        with (parse_xml (geocode_nested depth) pg false rv w0);
      rewrite (parse_xml_places _ (PageObj r) _ _ _ _ Hx); reflexivity.
  - intros json status places H Hl Hs H200 Hpl. rewrite H.
    change (dispatch (geocode_nested depth) ("parse_" ++ "json") ?pg false ?rv ?w0)
      with (parse_json pg false rv w0).
    rewrite (parse_json_places (PageObj r) _ _ _ _ _ _ Hl Hs H200 Hpl). reflexivity.
Qed.

End LazyProperties.

(* ===================================================================== *)
(** ** One placemark of a JSON response *)
(* ===================================================================== *)

Section JsonPlaceProperties.

Context {P : Platform}.

(** X8: a placemark that is an object with [Point.coordinates] a list of
    at least two entries and without [AddressDetails] parses to its
    [address] (or [None] without one) with the first two coordinates
    swapped to (lat, lon), further entries unread, and with locality,
    administrative area and accuracy all [None]. *)
Theorem json_place_without_address_details
    (members : list (string * PyVal float)) (point lon lat : PyVal float)
    (rest : list (PyVal float)) :
  lookup "Point" members = Some point ->
  py_getitem point "coordinates" = Ok (VList (lon :: lat :: rest)) ->
  lookup "AddressDetails" members = None ->
  json_parse_place (VDict members) =
  Ok {| location := match lookup "address" members with
                    | Some address => address
                    | None => VNone
                    end;
        latitude := lat; longitude := lon;
        extension := Some {| locality := VNone; administrative := VNone;
                             accuracy := VNone |} |}.
Proof.
  intros Hpoint Hcoords Hdetails. unfold json_parse_place.
  cbn [py_get py_getitem obind]. rewrite Hpoint. cbn [obind]. rewrite Hcoords.
  cbn [obind py_slice2 firstn py_unpack2]. rewrite Hdetails.
  cbn [obind py_get lookup]. reflexivity.
Qed.

(** Only a dict has [get]. *)
Lemma py_get_not_dict (v : PyVal float) k d :
  (forall m, v <> VDict m) -> py_get v k d = Raise AttributeError.
Proof. intros H. destruct v; try reflexivity. exfalso. exact (H _ eq_refl). Qed.

(** X9: where the response gives [AddressDetails] as something that is
    not an object (a null, a string, a list), the default of
    [.get('AddressDetails', {})] does not apply and the placemark fails
    with [AttributeError], its coordinates being in order. *)
Theorem json_place_with_null_address_details
    (members : list (string * PyVal float)) (point lon lat details : PyVal float)
    (rest : list (PyVal float)) :
  lookup "Point" members = Some point ->
  py_getitem point "coordinates" = Ok (VList (lon :: lat :: rest)) ->
  lookup "AddressDetails" members = Some details ->
  (forall m, details <> VDict m) ->
  json_parse_place (VDict members) = Raise AttributeError.
Proof.
  intros Hpoint Hcoords Hdetails Hnot. unfold json_parse_place.
  cbn [py_get py_getitem obind]. rewrite Hpoint. cbn [obind]. rewrite Hcoords.
  cbn [obind py_slice2 firstn py_unpack2]. rewrite Hdetails.
  cbn [obind]. rewrite (py_get_not_dict details _ _ Hnot). reflexivity.
Qed.

(** X10: the coordinates of a placemark are required: a placemark that is
    no object fails with [AttributeError], one without [Point], or whose
    [Point] has no [coordinates], with [KeyError], one whose coordinates
    are a list of fewer than two entries with [ValueError], and one whose
    coordinates are a number or null with [TypeError]. *)
Theorem json_place_needs_coordinates (members : list (string * PyVal float)) :
  (forall place, (forall m, place <> VDict m) ->
                 json_parse_place place = Raise AttributeError) /\
  (lookup "Point" members = None ->
   json_parse_place (VDict members) = Raise KeyError) /\
  (forall pm, lookup "Point" members = Some (VDict pm) ->
              lookup "coordinates" pm = None ->
              json_parse_place (VDict members) = Raise KeyError) /\
  (forall pm cs, lookup "Point" members = Some (VDict pm) ->
                 lookup "coordinates" pm = Some (VList cs) ->
                 List.length cs < 2 ->
                 json_parse_place (VDict members) = Raise (ValueError None)) /\
  (forall pm c, lookup "Point" members = Some (VDict pm) ->
                lookup "coordinates" pm = Some c ->
                (c = VNone \/ (exists z, c = VInt z) \/ (exists f, c = VFloat f)) ->
                json_parse_place (VDict members) = Raise TypeError).
Proof.
  repeat split.
  - intros place H. unfold json_parse_place.
    rewrite (py_get_not_dict place _ _ H). reflexivity.
  - intros H. unfold json_parse_place. cbn [py_get py_getitem obind].
    rewrite H. reflexivity.
  - intros pm H1 H2. unfold json_parse_place. cbn [py_get py_getitem obind].
    rewrite H1. cbn [obind py_getitem]. rewrite H2. reflexivity.
  - intros pm cs H1 H2 Hlen. unfold json_parse_place. cbn [py_get py_getitem obind].
    rewrite H1. cbn [obind py_getitem]. rewrite H2. cbn [obind py_slice2].
    destruct cs as [|a [|b cs]]; cbn in Hlen; try reflexivity.
    exfalso. apply (Nat.lt_irrefl 2). eapply Nat.le_lt_trans; [|exact Hlen].
    apply le_n_S, le_n_S, Nat.le_0_l.
  - intros pm c H1 H2 Hc. unfold json_parse_place. cbn [py_get py_getitem obind].
    rewrite H1. cbn [obind py_getitem]. rewrite H2.
    destruct Hc as [-> | [[z ->] | [f ->]]]; reflexivity.
Qed.

(** X11: [parse_json] takes a response without [Status], or with a
    [Status] without [code], for a failed one: it raises
    [GeoStatusError] carrying [None], whatever placemarks the response
    holds; a response that is no object, or whose [Status] is no object,
    fails with [AttributeError]. *)
Theorem json_response_without_status
    (page : Page) (json : PyVal float) (exactly_one reverse : bool) (w : World) :
  loads (page_text page) = Ok json ->
  (forall members,
      json = VDict members ->
      lookup "Status" members = None \/
      (exists st, lookup "Status" members = Some (VDict st) /\ lookup "code" st = None) ->
      parse_json page exactly_one reverse w = (Raise (GeoStatusError VNone), w)) /\
  ((forall m, json <> VDict m) ->
   parse_json page exactly_one reverse w = (Raise AttributeError, w)) /\
  (forall members st,
      json = VDict members ->
      lookup "Status" members = Some st ->
      (forall m, st <> VDict m) ->
      parse_json page exactly_one reverse w = (Raise AttributeError, w)).
Proof.
  intros Hl. repeat split.
  - intros members -> H.
    assert (Hs : json_status (VDict members) = Ok VNone).
    { unfold json_status. cbn [py_get obind].
      destruct H as [H | (st & H1 & H2)].
      - rewrite H. reflexivity.
      - rewrite H1. cbn [py_get]. rewrite H2. reflexivity. }
    rewrite (parse_json_status _ _ _ _ _ _ Hl Hs). reflexivity.
  - intros H. unfold parse_json, bind, lift. rewrite Hl.
    unfold json_status. rewrite (py_get_not_dict json _ _ H). reflexivity.
  - intros members st -> H1 H2. unfold parse_json, bind, lift. rewrite Hl.
    unfold json_status. cbn [py_get obind]. rewrite H1.
    rewrite (py_get_not_dict st _ _ H2). reflexivity.
Qed.

End JsonPlaceProperties.

(* ===================================================================== *)
(** ** The URL and its parameters *)
(* ===================================================================== *)

Module StripFacts.
Import PyStr.

Lemma lstrip_sep c s : lstrip c (String c s) = lstrip c s.
Proof. cbn [lstrip]. now rewrite Ascii.eqb_refl. Qed.

Lemma rstrip_sep c s : rstrip c (s ++ String c EmptyString) = rstrip c s.
Proof.
  induction s as [|a s IH]; cbn [append rstrip].
  - now rewrite Ascii.eqb_refl.
  - now rewrite IH.
Qed.

Lemma strip_sep_left c s : strip c (String c s) = strip c s.
Proof.
  unfold strip. cbn [rstrip].
  destruct (rstrip c s) as [|a r]; [now rewrite Ascii.eqb_refl | apply lstrip_sep].
Qed.

Lemma strip_sep_right c s : strip c (s ++ String c EmptyString) = strip c s.
Proof. unfold strip. now rewrite rstrip_sep. Qed.

Lemma append_assoc (s t u : string) : (s ++ t) ++ u = s ++ (t ++ u).
Proof. induction s as [|a s IH]; cbn; [reflexivity | now rewrite IH]. Qed.

Lemma slashes_snoc n : slashes (S n) = slashes n ++ "/".
Proof. induction n as [|n IH]; [reflexivity|]. cbn [slashes append] in *. now rewrite <- IH. Qed.

Lemma strip_slashes a b s : strip "/" (slashes a ++ s ++ slashes b) = strip "/" s.
Proof.
  induction a as [|a IH]; cbn [slashes append].
  - induction b as [|b IH].
    + cbn [slashes]. now rewrite ReFacts.append_empty.
    + rewrite slashes_snoc, <- append_assoc, strip_sep_right. exact IH.
  - rewrite strip_sep_left. exact IH.
Qed.

Lemma rstrip_slashes_right b s : rstrip "/" (s ++ slashes b) = rstrip "/" s.
Proof.
  induction b as [|b IH].
  - cbn [slashes]. now rewrite ReFacts.append_empty.
  - rewrite slashes_snoc, <- append_assoc, rstrip_sep. exact IH.
Qed.

(** Whether the text ends with [geo] is not changed by a slash in front of
    it, trailing slashes removed. *)
Lemma geo_suffix_sep_left s :
  endswith (rstrip "/" (String "/" s)) "geo" = endswith (rstrip "/" s) "geo".
Proof.
  cbn [rstrip]. destruct (rstrip "/" s) as [|a r]; reflexivity.
Qed.

Lemma geo_suffix_slashes a b s :
  endswith (rstrip "/" (slashes a ++ s ++ slashes b)) "geo" = endswith (rstrip "/" s) "geo".
Proof.
  induction a as [|a IH]; cbn [slashes append].
  - now rewrite rstrip_slashes_right.
  - rewrite geo_suffix_sep_left. exact IH.
Qed.

End StripFacts.

Section UrlProperties.

Context {P : Platform}.

(** X12: slashes before and after the configured domain and resource
    change nothing: the URL template is the same, and so are the
    parameters of every call, the [key] among them. *)
Theorem outer_slashes_do_not_matter (g : Google) (a b c d : nat) :
  url (with_outer_slashes g a b c d) = url g /\
  (forall call, call_params (with_outer_slashes g a b c d) call = call_params g call).
Proof.
  split.
  - unfold url, with_outer_slashes. cbn [domain resource].
    now rewrite !StripFacts.strip_slashes.
  - intros [query lang sensor vc vs | [lat lng]]; cbn [call_params];
      unfold geocode_params, reverse_params, with_outer_slashes;
      cbn [format_string output_format resource api_key];
      rewrite StripFacts.geo_suffix_slashes; reflexivity.
Qed.

Lemma url_param_names_perm params :
  Permutation (url_param_names params) (map (fun kv => Urllib.quote_plus (fst kv)) params).
Proof.
  unfold url_param_names, urlencode.
  rewrite StrFacts.param_names_urlencode, map_map. cbn [fst].
  apply Permutation_map. apply dict_items_perm.
Qed.

(** X13: the query string of a call has exactly the parameters that the
    method puts together, each once: [q], [output] and [sensor], then [gl],
    [ll] with [spn], and [key] under their conditions for [geocode]; [q],
    [output] and [key] under its condition for [reverse].  The text of the
    query, however it is written, adds none. *)
Theorem query_string_has_exactly_the_parameters (g : Google) (c : Call) (params : dict) :
  call_params g c = Ok params ->
  Permutation (url_param_names params) (call_names g c).
Proof.
  intros H. eapply Permutation_trans; [apply url_param_names_perm|].
  destruct c as [query lang sensor vc vs | [lat lng]]; cbn [call_params call_names] in *.
  - unfold geocode_params in H.
    destruct (str_mod (format_string g) query) as [q|e]; cbn [obind] in H; [|discriminate].
    injection H as <-. unfold geocode_names.
    destruct (opt_truthy lang), (opt_truthy vc), (opt_truthy vs),
      (PyStr.endswith (PyStr.rstrip "/" (resource g)) "geo");
      cbn [andb]; vm_compute; apply Permutation_refl.
  - unfold reverse_params in H.
    destruct (str_mod (format_string g) lat) as [a|e]; cbn [obind] in H; [|discriminate].
    destruct (str_mod (format_string g) lng) as [b|e]; cbn [obind] in H; [|discriminate].
    injection H as <-. unfold reverse_names.
    destruct (PyStr.endswith (PyStr.rstrip "/" (resource g)) "geo");
      vm_compute; apply Permutation_refl.
Qed.

End UrlProperties.

(* ===================================================================== *)
(** ** Requests and their log records *)
(* ===================================================================== *)

Section RequestAccounting.

Context {P : Platform}.

Lemma logged_requests_refl w : logged_requests w w.
Proof. exists []. split; reflexivity. Qed.

Lemma logged_requests_trans w1 w2 w3 :
  logged_requests w1 w2 -> logged_requests w2 w3 -> logged_requests w1 w3.
Proof.
  intros (us1 & R1 & L1) (us2 & R2 & L2). exists (us2 ++ us1)%list. split.
  - rewrite R2, R1. apply app_assoc.
  - rewrite L2, L1, map_app. apply app_assoc.
Qed.

Lemma logged_requests_requested u w : logged_requests w (requested u w).
Proof. exists [u]. split; reflexivity. Qed.

(** The methods above the parsers, by what they do to the state. *)
Lemma geocode_body_stops_or_opens nested query exactly_one language_code sensor vc vs w :
  (exists e, geocode_body nested query exactly_one language_code sensor vc vs w
             = (Raise e, w)) \/
  (exists u, geocode_body nested query exactly_one language_code sensor vc vs w
             = geocode_url nested u exactly_one false w).
Proof.
  unfold geocode_body, bind, lift, get_self.
  destruct (geocode_params _ _ _ _ _ _) as [params|e]; [|left; eauto].
  destruct (build_url _ _) as [u|e]; [right; eauto | left; eauto].
Qed.

Lemma reverse_body_stops_or_opens nested coord exactly_one w :
  (exists e, reverse_body nested coord exactly_one w = (Raise e, w)) \/
  (exists u, reverse_body nested coord exactly_one w
             = geocode_url nested u exactly_one true w).
Proof.
  unfold reverse_body, bind, lift, get_self.
  destruct (reverse_params _ _) as [params|e]; [|left; eauto].
  destruct (build_url _ _) as [u|e]; [right; eauto | left; eauto].
Qed.

Section OverNested.

Variable nested : PyVal float -> M (GeoResult float).
Hypothesis nested_logged : forall q, steady logged_requests (nested q).

Lemma geocode_url_logged u exactly_one reverse :
  steady logged_requests (geocode_url nested u exactly_one reverse).
Proof.
  intros w. rewrite geocode_url_unfold.
  destruct (urlopen (requests w) u) as [r|e]; [|apply logged_requests_requested].
  eapply logged_requests_trans; [apply logged_requests_requested|].
  apply (steady_dispatch logged_requests logged_requests_refl logged_requests_trans
           nested nested_logged).
Qed.

Lemma geocode_body_logged query exactly_one language_code sensor vc vs :
  steady logged_requests
    (geocode_body nested query exactly_one language_code sensor vc vs).
Proof.
  intros w.
  destruct (geocode_body_stops_or_opens nested query exactly_one language_code
              sensor vc vs w) as [[e H] | [u H]]; rewrite H.
  - apply logged_requests_refl.
  - apply geocode_url_logged.
Qed.

Lemma reverse_body_logged coord exactly_one :
  steady logged_requests (reverse_body nested coord exactly_one).
Proof.
  intros w.
  destruct (reverse_body_stops_or_opens nested coord exactly_one w)
    as [[e H] | [u H]]; rewrite H.
  - apply logged_requests_refl.
  - apply geocode_url_logged.
Qed.

End OverNested.

Lemma geocode_nested_logged depth query :
  steady logged_requests (geocode_nested depth query).
Proof.
  revert query. induction depth as [|d IH]; intros query; cbn [geocode_nested].
  - intros w. apply logged_requests_refl.
  - exact (geocode_body_logged (geocode_nested d) IH query true None false None None).
Qed.

(** X14: whatever a call of [geocode] or [reverse] does, and whatever the
    consumption of a generator does, each URL it hands to the transport
    has its record [Fetching <url>...] in the log, in the same order, and
    it logs nothing else; so a log that lists the requests before still
    lists them after. *)
Theorem every_request_is_logged (depth : nat) (w : World) :
  (forall c exactly_one, logged_requests w (snd (perform depth c exactly_one w))) /\
  (forall g, logged_requests w (snd (consume depth g w))) /\
  (log w = map fetch_record (requests w) ->
   forall c exactly_one,
     log (snd (perform depth c exactly_one w)) =
     map fetch_record (requests (snd (perform depth c exactly_one w)))).
Proof.
  assert (Hc : forall c exactly_one,
             logged_requests w (snd (perform depth c exactly_one w))).
  { intros [query lang sensor vc vs | coord] exactly_one; cbn [perform].
    - apply geocode_body_logged. intros q. apply geocode_nested_logged.
    - apply reverse_body_logged. intros q. apply geocode_nested_logged. }
  split; [exact Hc|]. split.
  - intros g.
    apply (steady_consume_body logged_requests logged_requests_refl
             logged_requests_trans).
    intros q. apply geocode_nested_logged.
  - intros H c exactly_one. destruct (Hc c exactly_one) as (us & Hr & Hl).
    rewrite Hl, Hr, map_app, H. reflexivity.
Qed.

(** *** How many requests *)

Lemma adds_none {A} (c : M A) :
  steady (fun w w' => w' = w) c -> adds_at_most 0 c.
Proof. intros H w. exists []. rewrite (H w). split; [reflexivity | apply le_n]. Qed.

Lemma adds_more {A} n m (c : M A) : n <= m -> adds_at_most n c -> adds_at_most m c.
Proof.
  intros Hle H w. destruct (H w) as (us & Hr & Hn). exists us. split; [exact Hr|].
  eapply Nat.le_trans; eassumption.
Qed.

Lemma unchanged_trans (w1 w2 w3 : World) : w2 = w1 -> w3 = w2 -> w3 = w1.
Proof. congruence. Qed.

Lemma parse_json_pure page exactly_one reverse :
  steady (fun w w' => w' = w) (parse_json page exactly_one reverse).
Proof. apply steady_parse_json; first [exact unchanged_trans | intros; reflexivity]. Qed.

Lemma parse_js_pure page exactly_one reverse :
  steady (fun w w' => w' = w) (parse_js page exactly_one reverse).
Proof. apply steady_parse_js; first [exact unchanged_trans | intros; reflexivity]. Qed.

Section BoundOverNested.

Variable nested : PyVal float -> M (GeoResult float).
Variable n : nat.
Hypothesis nested_adds : forall q, adds_at_most n (nested q).

Lemma xml_parse_place_adds place : adds_at_most n (xml_parse_place nested place).
Proof.
  intros w. destruct (coordinate_text place) as [coords|] eqn:Hc.
  - rewrite (xml_parse_place_with_coordinates _ _ _ _ Hc).
    exists []. split; [|apply Nat.le_0_l].
    destruct (floats _) as [[|x [|y [|z fs]]]|e]; reflexivity.
  - rewrite (xml_parse_place_without_coordinates _ _ _ Hc).
    destruct (nested_adds (val_of_opt (label_text place)) w) as (us & Hr & Hn).
    exists us. split; [|exact Hn].
    destruct (nested _ w) as [[r|e] w']; exact Hr.
Qed.

Lemma parse_xml_adds page reverse : adds_at_most n (parse_xml nested page true reverse).
Proof.
  intros w. destruct (xml_places (page_text page)) as [places|e] eqn:Hp.
  - rewrite (parse_xml_places _ _ _ _ _ _ Hp).
    destruct ((true && negb (List.length places =? 1)%nat) && negb reverse).
    + exists []. split; [reflexivity | apply Nat.le_0_l].
    + destruct places as [|place places].
      * exists []. split; [reflexivity | apply Nat.le_0_l].
      * apply xml_parse_place_adds.
  - unfold parse_xml, bind, lift. rewrite Hp.
    exists []. split; [reflexivity | apply Nat.le_0_l].
Qed.

Lemma dispatch_adds name page reverse :
  adds_at_most n (dispatch nested name page true reverse).
Proof.
  unfold dispatch, parse_kml.
  repeat match goal with
         | |- adds_at_most _ (if ?b then _ else _) => destruct b
         end.
  - apply parse_xml_adds.
  - intros w. exists []. split; [reflexivity | apply Nat.le_0_l].
  - apply parse_xml_adds.
  - apply (adds_more 0); [apply Nat.le_0_l | apply adds_none, parse_json_pure].
  - apply (adds_more 0); [apply Nat.le_0_l | apply adds_none, parse_js_pure].
  - intros w. exists []. split; [reflexivity | apply Nat.le_0_l].
Qed.

Lemma geocode_url_adds u reverse :
  adds_at_most (S n) (geocode_url nested u true reverse).
Proof.
  intros w. rewrite geocode_url_unfold.
  destruct (urlopen (requests w) u) as [r|e].
  - destruct (dispatch_adds ("parse_" ++ output_format (self w)) (PageObj r) reverse
                (requested u w)) as (us & Hr & Hn).
    exists (us ++ [u])%list. split.
    + rewrite Hr. cbn [requested requests]. now rewrite <- app_assoc.
    + rewrite length_app, Nat.add_comm. cbn. now apply le_n_S.
  - exists [u]. split; [reflexivity|]. cbn. apply le_n_S, Nat.le_0_l.
Qed.

End BoundOverNested.

(** In the mode for all results the parsers leave the state alone. *)
Lemma dispatch_lazy nested name page reverse :
  steady (fun w w' => w' = w) (dispatch nested name page false reverse).
Proof.
  unfold dispatch, parse_kml.
  assert (Hx : steady (fun w w' => w' = w) (parse_xml nested page false reverse)).
  { intros w. unfold parse_xml, bind, lift.
    destruct (xml_places (page_text page)); reflexivity. }
  repeat match goal with
         | |- steady _ (if ?b then _ else _) => destruct b
         end;
    auto using parse_json_pure, parse_js_pure; intros w; reflexivity.
Qed.

Lemma geocode_url_adds_one nested u reverse :
  adds_at_most 1 (geocode_url nested u false reverse).
Proof.
  intros w. rewrite geocode_url_unfold. exists [u].
  split; [|apply le_n].
  destruct (urlopen (requests w) u) as [r|e]; [|reflexivity].
  now rewrite (dispatch_lazy nested _ _ reverse (requested u w)).
Qed.

Lemma geocode_nested_adds depth query : adds_at_most depth (geocode_nested depth query).
Proof.
  revert query. induction depth as [|d IH]; intros query w; cbn [geocode_nested].
  - exists []. split; [reflexivity | apply le_n].
  - destruct (geocode_body_stops_or_opens (geocode_nested d) query true None false
                None None w) as [[e H] | [u H]]; rewrite H.
    + exists []. split; [reflexivity | apply Nat.le_0_l].
    + apply (geocode_url_adds (geocode_nested d) d IH).
Qed.

(** X15: a call of [geocode] or [reverse] that has room for [depth]
    nested calls before the recursion limit hands at most [depth + 1] URLs
    to the transport when it is asked for one result, and at most one when
    it is asked for all. *)
Theorem requests_are_bounded (depth : nat) (c : Call) :
  adds_at_most (S depth) (perform depth c true) /\
  adds_at_most 1 (perform depth c false).
Proof.
  split; intros w; destruct c as [query lang sensor vc vs | coord]; cbn [perform].
  - destruct (geocode_body_stops_or_opens (geocode_nested depth) query true lang
                sensor vc vs w) as [[e H] | [u H]];
      unfold geocode; rewrite H.
    + exists []. split; [reflexivity | apply Nat.le_0_l].
    + apply (geocode_url_adds (geocode_nested depth) depth (geocode_nested_adds depth)).
  - destruct (reverse_body_stops_or_opens (geocode_nested depth) coord true w)
      as [[e H] | [u H]]; unfold reverse; rewrite H.
    + exists []. split; [reflexivity | apply Nat.le_0_l].
    + apply (geocode_url_adds (geocode_nested depth) depth (geocode_nested_adds depth)).
  - destruct (geocode_body_stops_or_opens (geocode_nested depth) query false lang
                sensor vc vs w) as [[e H] | [u H]];
      unfold geocode; rewrite H.
    + exists []. split; [reflexivity | apply Nat.le_0_l].
    + apply geocode_url_adds_one.
  - destruct (reverse_body_stops_or_opens (geocode_nested depth) coord false w)
      as [[e H] | [u H]]; unfold reverse; rewrite H.
    + exists []. split; [reflexivity | apply Nat.le_0_l].
    + apply geocode_url_adds_one.
Qed.

End RequestAccounting.

(* ===================================================================== *)
(** ** One placemark of an XML response, and the generators *)
(* ===================================================================== *)

Section XmlPlaceProperties.

Context {P : Platform}.

Variable nested : PyVal float -> M (GeoResult float).

(** X16: a coordinate text with a single component, or with a first or
    second component that [float] does not read, makes [parse_place] raise
    [ValueError]; the placemark's label is not looked up instead. *)
Theorem unreadable_coordinates_raise
    (place : Dom.Node) (coords : string) (w : World) :
  coordinate_text place = Some coords ->
  (forall only, PyStr.split "," coords = [only] ->
                xml_parse_place nested place w = (Raise (ValueError None), w)) /\
  (forall a b rest, PyStr.split "," coords = a :: b :: rest ->
                    float_of_str a = None \/ float_of_str b = None ->
                    xml_parse_place nested place w = (Raise (ValueError None), w)).
Proof.
  intros Hc. rewrite (xml_parse_place_with_coordinates _ _ _ _ Hc). split.
  - intros only ->. cbn [firstn floats].
    destruct (float_of_str only); reflexivity.
  - intros a b rest -> H. cbn [firstn floats].
    destruct (float_of_str a) as [x|]; [|reflexivity].
    destruct H as [H | H]; [discriminate|]. rewrite H. reflexivity.
Qed.

End XmlPlaceProperties.

Section GeneratorProperties.

Context {P : Platform}.

(** X17: a placemark with neither a label nor a coordinate text makes
    [parse_place] call [self.geocode(None)]; the result has no label and
    the coordinates of that call, and what that call raises is raised. *)
Theorem unnamed_placemark_geocodes_none (depth : nat) (place : Dom.Node) (w : World) :
  label_text place = None ->
  coordinate_text place = None ->
  xml_parse_place (geocode_nested (S depth)) place w =
  match geocode depth VNone true None false None None w with
  | (Ok r, w') =>
      (Ok {| location := VNone; latitude := latitude r; longitude := longitude r;
             extension := None |}, w')
  | (Raise e, w') => (Raise e, w')
  end.
Proof.
  intros Hl Hc. rewrite (xml_parse_place_without_coordinates _ _ _ Hc), Hl.
  reflexivity.
Qed.

Lemma each_lift_ok {A} (f : A -> Outcome float (GeoResult float)) l results w :
  Forall2 (fun x r => f x = Ok r) l results ->
  each (fun x => lift (f x)) l w = (Ok results, w).
Proof.
  intros H. induction H as [|x r l results Hx _ IH]; [reflexivity|].
  cbn [each]. unfold bind, lift at 1. rewrite Hx.
  fold (@bind P). unfold bind. rewrite IH. reflexivity.
Qed.

Lemma each_lift_fails {A} (f : A -> Outcome float (GeoResult float))
    good results bad rest e w :
  Forall2 (fun x r => f x = Ok r) good results ->
  f bad = Raise e ->
  each (fun x => lift (f x)) (good ++ bad :: rest) w = (Raise e, w).
Proof.
  intros H Hb. induction H as [|x r l results Hx _ IH]; cbn [app each].
  - unfold bind, lift at 1. rewrite Hb. reflexivity.
  - unfold bind, lift at 1. rewrite Hx. fold (@bind P). unfold bind.
    rewrite IH. reflexivity.
Qed.

(** X18: consuming the generator of a JSON response yields the parses of
    its placemarks in their order and sends nothing; the first placemark
    that fails to parse ends the consumption with its exception, the
    results before it being lost with it. *)
Theorem json_generator_in_order
    (depth : nat) (good : list (PyVal float)) (results : list (GeoResult float))
    (w : World) :
  Forall2 (fun place r => json_parse_place place = Ok r) good results ->
  consume depth (GenJson good) w = (Ok results, w) /\
  (forall bad rest e,
      json_parse_place bad = Raise e ->
      consume depth (GenJson (good ++ bad :: rest)) w = (Raise e, w)).
Proof.
  intros H. split.
  - apply each_lift_ok. exact H.
  - intros bad rest e Hb.
    exact (each_lift_fails json_parse_place good results bad rest e w H Hb).
Qed.

End GeneratorProperties.

(** X19: matched at the start of a label, the [ADDRESS] pattern captures
    the text in front of [ (] when an [@] follows on the same line, there
    being no [(] earlier, and the whole label when it is one line without
    [@]. *)
Theorem address_pattern_cuts_at_marker :
  (forall pre mid post,
      PyStr.contains "(" pre = false ->
      PyStr.contains Re.newline pre = false ->
      PyStr.contains Re.newline mid = false ->
      Re.address (pre ++ " (" ++ mid ++ String "@" post) = Some pre) /\
  (forall label,
      PyStr.contains "@" label = false ->
      PyStr.contains Re.newline label = false ->
      Re.address label = Some label).
Proof.
  split.
  - exact ReFacts.address_truncates.
  - exact ReFacts.address_kept_whole.
Qed.

Section EndToEnd.

Context {P : Platform}.

(** X20: a call for one result under the [xml] or [kml] format, answered
    with a page whose first placemark has the coordinate text
    [lon,lat] or [lon,lat,...] (the only placemark, unless the call is
    a reverse lookup), returns that placemark's label with (lat, lon) after
    the one request. *)
Theorem one_result_end_to_end
    (depth : nat) (c : Call) (params : dict) (u : string) (r : Util.Response)
    (place : Dom.Node) (others : list Dom.Node)
    (coords lon_text lat_text : string) (rest : list string) (lon lat : float)
    (w : World) :
  call_params (self w) c = Ok params ->
  build_url (self w) params = Ok u ->
  urlopen (requests w) u = Ok r ->
  output_format (self w) = "xml" \/ output_format (self w) = "kml" ->
  xml_places (Util.body r) = Ok (place :: others) ->
  others = [] \/ is_reverse c = true ->
  coordinate_text place = Some coords ->
  PyStr.split "," coords = lon_text :: lat_text :: rest ->
  float_of_str lon_text = Some lon ->
  float_of_str lat_text = Some lat ->
  perform depth c true w =
  (Ok {| location := val_of_opt (label_text place);
         latitude := VFloat lat; longitude := VFloat lon; extension := None |},
   requested u w).
Proof.
  intros Hp Hu Hr Hf Hx Ho Hc Hs Hlon Hlat.
  rewrite (perform_opens_built_url _ _ _ _ _ _ Hp Hu), geocode_url_unfold, Hr.
  assert (E : parse_xml (geocode_nested depth) (PageObj r) true (is_reverse c)
                (requested u w) =
              xml_parse_place (geocode_nested depth) place (requested u w)).
  { rewrite (parse_xml_places _ (PageObj r) _ _ _ _ Hx).
    destruct Ho as [-> | ->]; [reflexivity|].
    rewrite andb_false_r. reflexivity. }
  assert (E' : dispatch (geocode_nested depth) ("parse_" ++ output_format (self w))
                 (PageObj r) true (is_reverse c) (requested u w) =
               parse_xml (geocode_nested depth) (PageObj r) true (is_reverse c)
                 (requested u w)).
  { destruct Hf as [-> | ->]; reflexivity. }
  rewrite E', E, (xml_parse_place_with_coordinates _ _ _ _ Hc), Hs.
  cbn [firstn floats]. rewrite Hlon, Hlat. reflexivity.
Qed.

(** X21: a receiver without an API key whose resource ends with [geo]
    sends the key all the same, as the text [None]: [key=None] is one of
    the components of the query string. *)
Theorem missing_api_key_is_sent_as_none (g : Google) (c : Call) (params : dict) :
  api_key g = None ->
  PyStr.endswith (PyStr.rstrip "/" (resource g)) "geo" = true ->
  call_params g c = Ok params ->
  In "key=None" (PyStr.split "&" (urlencode params)).
Proof.
  intros Hk Hg Hp.
  assert (Hin : In ("key", None) params).
  { destruct c as [query lang sensor vc vs | [lat lng]]; cbn [call_params] in Hp.
    - unfold geocode_params in Hp.
      destruct (str_mod (format_string g) query) as [q|e]; cbn [obind] in Hp;
        [|discriminate].
      injection Hp as <-. rewrite Hg, Hk.
      destruct (opt_truthy lang), (opt_truthy vc), (opt_truthy vs); cbn; auto 10.
    - unfold reverse_params in Hp.
      destruct (str_mod (format_string g) lat) as [a|e]; cbn [obind] in Hp;
        [|discriminate].
      destruct (str_mod (format_string g) lng) as [b|e]; cbn [obind] in Hp;
        [|discriminate].
      injection Hp as <-. rewrite Hg, Hk. cbn. auto. }
  assert (Hitems : In ("key", None) (dict_items params)).
  { eapply Permutation_in; [apply Permutation_sym, dict_items_perm | exact Hin]. }
  unfold urlencode, Urllib.urlencode.
  rewrite StrFacts.split_join_components.
  - change "key=None" with (Urllib.component ("key", py_str None)).
    apply in_map.
    change ("key", py_str None) with ((fun kv : string * option string =>
                                         (fst kv, py_str (snd kv))) ("key", None)).
    apply in_map. exact Hitems.
  - destruct (dict_items params); [destruct Hitems | discriminate].
Qed.

End EndToEnd.

(* ===================================================================== *)
(** ** Further runs on the concrete platform *)
(* ===================================================================== *)

(** A format string without a slot. *)
Lemma formatting_error_before_any_request_witness :
  call_params (P := Demo.platform) (self (Fixture.world More.slotless)) More.amphitheatre_call
    = Raise TypeError /\
  perform (P := Demo.platform) 0 More.amphitheatre_call true (Fixture.world More.slotless)
    = (Raise TypeError, Fixture.world More.slotless).
Proof.
  split; [reflexivity|].
  apply (formatting_error_before_any_request (P := Demo.platform)).
  left. reflexivity.
Defined.

(** A query that the server does not answer. *)
Lemma transport_error_is_raised_as_is_witness :
  call_params (P := Demo.platform) (self Demo.world) More.unknown_call
    = Ok More.unknown_params /\
  build_url (P := Demo.platform) (self Demo.world) More.unknown_params
    = Ok More.unknown_url /\
  urlopen (Platform := Demo.platform) (requests Demo.world) More.unknown_url
    = Raise (OtherError "URLError") /\
  perform (P := Demo.platform) 0 More.unknown_call true Demo.world
    = (Raise (OtherError "URLError"), requested More.unknown_url Demo.world).
Proof.
  repeat (split; [reflexivity|]).
  exact (transport_error_is_raised_as_is (P := Demo.platform) 0 More.unknown_call true
           More.unknown_params More.unknown_url (OtherError "URLError") Demo.world
           eq_refl eq_refl eq_refl).
Defined.

(** The format [KML]: the request says [kml], the dispatch finds nothing. *)
Lemma format_without_parser_fails_after_the_request_witness :
  call_params (P := Demo.platform) More.capitals More.amphitheatre_call
    = Ok More.amphitheatre_params /\
  build_url (P := Demo.platform) More.capitals More.amphitheatre_params
    = Ok More.amphitheatre_url /\
  urlopen (Platform := Demo.platform) [] More.amphitheatre_url
    = Ok {| Util.body := Demo.amphitheatre_page |} /\
  existsb (String.eqb "KML") known_formats = false /\
  perform (P := Demo.platform) 0 More.amphitheatre_call true (Fixture.world More.capitals)
    = (Raise AttributeError, requested More.amphitheatre_url (Fixture.world More.capitals)).
Proof.
  repeat (split; [reflexivity|]).
  exact (proj1 (format_without_parser_fails_after_the_request (P := Demo.platform) 0
                  More.amphitheatre_call true More.amphitheatre_params
                  More.amphitheatre_url {| Util.body := Demo.amphitheatre_page |}
                  (Fixture.world More.capitals) eq_refl eq_refl eq_refl)
           eq_refl).
Defined.

(** A page with two placemarks on a forward lookup. *)
Lemma forward_xml_needs_exactly_one_witness :
  xml_places (P := Demo.platform) (page_text (PageStr More.two_placemarks_page))
    = Ok [More.placemark_a; More.placemark_b] /\
  parse_xml (P := Demo.platform) (geocode_nested 0) (PageStr More.two_placemarks_page)
    true false Demo.world
  = (Raise (ValueError (Some "Didn't find exactly one placemark! (Found 2.)")), Demo.world).
Proof.
  split; [reflexivity|].
  refine (proj1 (forward_xml_needs_exactly_one (P := Demo.platform) (geocode_nested 0)
                   (PageStr More.two_placemarks_page)
                   [More.placemark_a; More.placemark_b] Demo.world eq_refl) _).
  discriminate.
Defined.

(** A JSON response with two placemarks on a forward lookup. *)
Lemma forward_json_needs_exactly_one_witness :
  loads (Platform := Demo.platform) (page_text (PageStr Demo.two_places_page))
    = Ok Demo.two_places_json /\
  parse_json (P := Demo.platform) (PageStr Demo.two_places_page) true false Demo.world
  = (Raise (ValueError (Some "Didn't find exactly one placemark! (Found 2.)")), Demo.world).
Proof.
  split; [reflexivity|].
  refine (proj1 (forward_json_needs_exactly_one (P := Demo.platform)
                   (PageStr Demo.two_places_page) Demo.two_places_json (VInt 200)
                   [Demo.place_a; Demo.place_b] Demo.world
                   eq_refl eq_refl eq_refl eq_refl) _).
  discriminate.
Defined.

(** The same pages on a reverse lookup. *)
Lemma reverse_returns_first_of_many_witness :
  parse_xml (P := Demo.platform) (geocode_nested 0) (PageStr More.two_placemarks_page)
    true true Demo.world
  = xml_parse_place (P := Demo.platform) (geocode_nested 0) More.placemark_a Demo.world /\
  parse_json (P := Demo.platform) (PageStr Demo.two_places_page) true true Demo.world
  = (json_parse_place (P := Demo.platform) Demo.place_a, Demo.world).
Proof.
  split.
  - exact (proj1 (reverse_returns_first_of_many (P := Demo.platform) (geocode_nested 0)
                    (PageStr More.two_placemarks_page) Demo.world)
             More.placemark_a [More.placemark_b] eq_refl).
  - exact (proj2 (reverse_returns_first_of_many (P := Demo.platform) (geocode_nested 0)
                    (PageStr Demo.two_places_page) Demo.world)
             Demo.two_places_json (VInt 200) Demo.place_a [Demo.place_b]
             eq_refl eq_refl eq_refl eq_refl).
Defined.

(** The end-to-end scenario, asked for all results. *)
Lemma all_results_are_returned_unparsed_witness :
  call_params (P := Demo.platform) (self Demo.world) More.amphitheatre_call
    = Ok More.amphitheatre_params /\
  build_url (P := Demo.platform) (self Demo.world) More.amphitheatre_params
    = Ok More.amphitheatre_url /\
  urlopen (Platform := Demo.platform) (requests Demo.world) More.amphitheatre_url
    = Ok {| Util.body := Demo.amphitheatre_page |} /\
  xml_places (P := Demo.platform) Demo.amphitheatre_page = Ok [Demo.amphitheatre_place] /\
  perform (P := Demo.platform) 0 More.amphitheatre_call false Demo.world
    = (Ok (GenXml [Demo.amphitheatre_place]), requested More.amphitheatre_url Demo.world).
Proof.
  repeat (split; [reflexivity|]).
  exact (proj1 (all_results_are_returned_unparsed (P := Demo.platform) 0
                  More.amphitheatre_call More.amphitheatre_params More.amphitheatre_url
                  {| Util.body := Demo.amphitheatre_page |} Demo.world
                  eq_refl eq_refl eq_refl)
           [Demo.amphitheatre_place] (or_intror eq_refl) eq_refl).
Defined.

(** A placemark with an altitude and no address details. *)
Lemma json_place_without_address_details_witness :
  json_parse_place (P := Demo.platform) Demo.place_a =
  Ok {| location := VStr "1 A St"; latitude := VInt 37; longitude := VInt (-122);
        extension := Some {| locality := VNone; administrative := VNone;
                             accuracy := VNone |} |}.
Proof.
  exact (json_place_without_address_details (P := Demo.platform)
           [("address", VStr "1 A St");
            ("Point", VDict [("coordinates", VList [VInt (-122); VInt 37; VInt 0])])]
           (VDict [("coordinates", VList [VInt (-122); VInt 37; VInt 0])])
           (VInt (-122)) (VInt 37) [VInt 0] eq_refl eq_refl eq_refl).
Defined.

(** The same placemark with null address details. *)
Lemma json_place_with_null_address_details_witness :
  json_parse_place (P := Demo.platform) More.null_details_place = Raise AttributeError.
Proof.
  refine (json_place_with_null_address_details (P := Demo.platform)
            [("address", VStr "1 A St");
             ("Point", VDict [("coordinates", VList [VInt (-122); VInt 37; VInt 0])]);
             ("AddressDetails", VNone)]
            (VDict [("coordinates", VList [VInt (-122); VInt 37; VInt 0])])
            (VInt (-122)) (VInt 37) VNone [VInt 0] eq_refl eq_refl eq_refl _).
  intros m. discriminate.
Defined.

(** A response without a status. *)
Lemma json_response_without_status_witness :
  loads (Platform := More.platform) (page_text (PageStr More.statusless_page))
    = Ok More.statusless_json /\
  parse_json (P := More.platform) (PageStr More.statusless_page) false false Demo.world
    = (Raise (GeoStatusError VNone), Demo.world).
Proof.
  split; [reflexivity|].
  exact (proj1 (json_response_without_status (P := More.platform)
                  (PageStr More.statusless_page) More.statusless_json false false
                  Demo.world eq_refl)
           [("Placemark", VList [])] eq_refl (or_introl eq_refl)).
Defined.

(** The parameters of the end-to-end scenario. *)
Lemma query_string_has_exactly_the_parameters_witness :
  call_params (P := Demo.platform) default_google More.amphitheatre_call
    = Ok More.amphitheatre_params /\
  Permutation (url_param_names (P := Demo.platform) More.amphitheatre_params)
    ["q"; "output"; "sensor"; "key"].
Proof.
  split; [reflexivity|].
  exact (query_string_has_exactly_the_parameters (P := Demo.platform) default_google
           More.amphitheatre_call More.amphitheatre_params eq_refl).
Defined.

(** A coordinate text without a latitude. *)
Lemma unreadable_coordinates_raise_witness :
  coordinate_text More.half_coordinated_place = Some "-122.084" /\
  PyStr.split "," "-122.084" = ["-122.084"] /\
  xml_parse_place (P := Demo.platform) (geocode_nested 1) More.half_coordinated_place
    Demo.world = (Raise (ValueError None), Demo.world).
Proof.
  repeat (split; [reflexivity|]).
  exact (proj1 (unreadable_coordinates_raise (P := Demo.platform) (geocode_nested 1)
                  More.half_coordinated_place "-122.084" Demo.world eq_refl)
           "-122.084" eq_refl).
Defined.

(** An empty placemark: the server is asked for [None]. *)
Lemma unnamed_placemark_geocodes_none_witness :
  label_text More.bare_place = None /\
  coordinate_text More.bare_place = None /\
  requests (snd (xml_parse_place (P := Demo.platform) (geocode_nested 1) More.bare_place
                   Demo.world))
  = ["http://maps.google.com/maps/geo?q=None&output=kml&sensor=false&key=None"].
Proof.
  repeat (split; [reflexivity|]).
  refine (eq_trans
            (f_equal (fun x => requests (snd x))
               (unnamed_placemark_geocodes_none (P := Demo.platform) 0 More.bare_place
                  Demo.world eq_refl eq_refl)) _).
  vm_compute. reflexivity.
Defined.

(** Two placemarks that parse, then one without a point. *)
Lemma json_generator_in_order_witness :
  json_parse_place (P := Demo.platform) Demo.place_a
    = Ok {| location := VStr "1 A St"; latitude := VInt 37; longitude := VInt (-122);
            extension := Some {| locality := VNone; administrative := VNone;
                                 accuracy := VNone |} |} /\
  json_parse_place (P := Demo.platform) More.pointless_place = Raise KeyError /\
  consume (P := Demo.platform) 0 (GenJson [Demo.place_a; More.pointless_place; Demo.place_b])
    Demo.world = (Raise KeyError, Demo.world).
Proof.
  repeat (split; [reflexivity|]).
  exact (proj2 (json_generator_in_order (P := Demo.platform) 0 [Demo.place_a]
                  [More.place_a_result] Demo.world
                  (Forall2_cons Demo.place_a More.place_a_result eq_refl (Forall2_nil _)))
           More.pointless_place [Demo.place_b] KeyError eq_refl).
Defined.

(** The label of the example. *)
Lemma address_pattern_cuts_at_marker_witness :
  Re.address ("123 Main St" ++ " (" ++ "via Acme" ++ String "@" "example)")
  = Some "123 Main St".
Proof.
  exact (proj1 address_pattern_cuts_at_marker "123 Main St" "via Acme" "example)"
           eq_refl eq_refl eq_refl).
Defined.

(** The end-to-end scenario. *)
Lemma one_result_end_to_end_witness :
  call_params (P := Demo.platform) (self Demo.world) More.amphitheatre_call
    = Ok More.amphitheatre_params /\
  build_url (P := Demo.platform) (self Demo.world) More.amphitheatre_params
    = Ok More.amphitheatre_url /\
  urlopen (Platform := Demo.platform) (requests Demo.world) More.amphitheatre_url
    = Ok {| Util.body := Demo.amphitheatre_page |} /\
  xml_places (P := Demo.platform) Demo.amphitheatre_page = Ok [Demo.amphitheatre_place] /\
  coordinate_text Demo.amphitheatre_place = Some "-122.084,37.422,0" /\
  perform (P := Demo.platform) 0 More.amphitheatre_call true Demo.world
    = (Ok (Demo.result "1600 Amphitheatre Pkwy, Mountain View, CA"
             (37422%Z, 3) ((-122084)%Z, 3)),
       requested More.amphitheatre_url Demo.world).
Proof.
  repeat (split; [reflexivity|]).
  exact (one_result_end_to_end (P := Demo.platform) 0 More.amphitheatre_call
           More.amphitheatre_params More.amphitheatre_url
           {| Util.body := Demo.amphitheatre_page |} Demo.amphitheatre_place []
           "-122.084,37.422,0" "-122.084" "37.422" ["0"]
           ((-122084)%Z, 3) (37422%Z, 3) Demo.world
           eq_refl eq_refl eq_refl (or_intror eq_refl) eq_refl (or_introl eq_refl)
           eq_refl eq_refl eq_refl eq_refl).
Defined.

(** The default receiver has no key and the [geo] resource. *)
Lemma missing_api_key_is_sent_as_none_witness :
  api_key default_google = None /\
  PyStr.endswith (PyStr.rstrip "/" (resource default_google)) "geo" = true /\
  call_params (P := Demo.platform) default_google More.amphitheatre_call
    = Ok More.amphitheatre_params /\
  In "key=None"
    (PyStr.split "&" (urlencode (P := Demo.platform) More.amphitheatre_params)).
Proof.
  repeat (split; [reflexivity|]).
  exact (missing_api_key_is_sent_as_none (P := Demo.platform) default_google
           More.amphitheatre_call More.amphitheatre_params eq_refl eq_refl eq_refl).
Defined.

(** A placemark without a point. *)
Lemma json_place_needs_coordinates_witness :
  json_parse_place (P := Demo.platform) More.pointless_place = Raise KeyError.
Proof.
  exact (proj1 (proj2 (json_place_needs_coordinates (P := Demo.platform)
                         [("address", VStr "Nowhere")]))
           eq_refl).
Defined.
